(** * Vacancy pipeline: the API client, the Vacancy model and the JSON storage

    A shallow embedding of [main.py]: Python values and their comparison
    operators, the [Vacancy] class, [HhVacancyAPI.get_vacancies] over an
    abstract remote, and [JsonVacancyStorage] over a small file system. *)

From Stdlib Require Import ZArith String Ascii List Bool Lia.
From Stdlib Require Import Floats.SpecFloat.
From stdpp Require Import base gmap strings list pretty.

Local Open Scope string_scope.
Local Open Scope Z_scope.

(** ** Python values *)

Module Py.

(** The values that JSON text denotes, which are also the values a Vacancy
    field holds here: [None], [bool], [int], [float], [str], [list] and a
    [dict] with string keys, in insertion order.  A float is an IEEE 754
    datum; an int is unbounded. *)
#[local] Unset Elimination Schemes.
Inductive pyval :=
| PNone
| PBool (b : bool)
| PInt (n : Z)
| PFloat (x : spec_float)
| PStr (s : string)
| PList (l : list pyval)
| PDict (d : list (string * pyval)).
#[local] Set Elimination Schemes.

(** [type(v)]. *)
Inductive pytype := TNoneType | TBool | TInt | TFloat | TStr | TList | TDict.

Definition pytype_eqb (a b : pytype) : bool :=
  match a, b with
  | TNoneType, TNoneType | TBool, TBool | TInt, TInt | TFloat, TFloat
  | TStr, TStr | TList, TList | TDict, TDict => true
  | _, _ => false
  end.

Definition type_of (v : pyval) : pytype :=
  match v with
  | PNone => TNoneType
  | PBool _ => TBool
  | PInt _ => TInt
  | PFloat _ => TFloat
  | PStr _ => TStr
  | PList _ => TList
  | PDict _ => TDict
  end.

(** [t in ts] for a list of type objects: membership by equality of types. *)
Definition type_in (t : pytype) (ts : list pytype) : bool :=
  existsb (pytype_eqb t) ts.

(** [isinstance(v, t)]: [bool] is the one subclass among these types, of
    [int]. *)
Definition isinstance (v : pyval) (t : pytype) : bool :=
  match type_of v, t with
  | TBool, TInt => true
  | a, b => pytype_eqb a b
  end.

(** The exceptions the program raises or lets through. *)
Inductive exn :=
| Exception (msg : string)
| ValueError (msg : string)
| KeyError (key : string)
| TypeError
| JSONDecodeError
| UnicodeDecodeError
| FileNotFoundError (path : string)
| PermissionError (path : string)
| IsADirectoryError (path : string).

Inductive result (A : Type) :=
| Ok (a : A)
| Raise (e : exn).
Arguments Ok {A} a.
Arguments Raise {A} e.

#[export] Instance result_ret : MRet result := fun A a => Ok a.
#[export] Instance result_bind : MBind result := fun A B f m =>
  match m with
  | Ok a => f a
  | Raise e => Raise e
  end.

(** Truth value of an object: [None], [False], a zero of either numeric
    type and an empty string, list or dict are false; NaN is true. *)
Definition truthy (v : pyval) : bool :=
  match v with
  | PNone => false
  | PBool b => b
  | PInt n => negb (n =? 0)
  | PFloat (S754_zero _) => false
  | PFloat _ => true
  | PStr s => negb (String.eqb s "")
  | PList l => match l with [] => false | _ => true end
  | PDict d => match d with [] => false | _ => true end
  end.

(** [a or b]. *)
Definition py_or (a b : pyval) : pyval := if truthy a then a else b.

(** *** Numbers *)

Inductive num := NInt (n : Z) | NFloat (x : spec_float).

(** [bool], [int] and [float] take part in numeric comparison; [True] is 1. *)
Definition numeric (v : pyval) : option num :=
  match v with
  | PBool b => Some (NInt (Z.b2z b))
  | PInt n => Some (NInt n)
  | PFloat x => Some (NFloat x)
  | _ => None
  end.

(** An int against a float is compared exactly, by value: [m * 2^e] is
    scaled to an integer on whichever side the exponent asks for. *)
Definition Z_SF_compare (n : Z) (x : spec_float) : option comparison :=
  match x with
  | S754_nan => None
  | S754_infinity s => Some (if s then Gt else Lt)
  | S754_zero _ => Some (n ?= 0)
  | S754_finite s m e =>
      let v := cond_Zopp s (Zpos m) in
      match e with
      | Zneg p => Some (n * 2 ^ Zpos p ?= v)
      | _ => Some (n ?= v * 2 ^ e)
      end
  end.

Definition num_compare (a b : num) : option comparison :=
  match a, b with
  | NInt m, NInt n => Some (m ?= n)
  | NInt m, NFloat y => Z_SF_compare m y
  | NFloat x, NInt n => CompOpp <$> Z_SF_compare n x
  | NFloat x, NFloat y => SFcompare x y
  end.

(** *** Comparison operators *)

Inductive cmpop := OpLt | OpLe | OpGt | OpGe.

(** What an ordering operator answers from a three-way comparison; an
    unordered pair (a NaN is involved) answers [False] to all four. *)
Definition test_op (op : cmpop) (c : option comparison) : bool :=
  match op, c with
  | OpLt, Some Lt => true
  | OpLe, Some (Lt | Eq) => true
  | OpGt, Some Gt => true
  | OpGe, Some (Gt | Eq) => true
  | _, _ => false
  end.

(** Lookup in the items of a dict, and the element-wise loops of the
    comparisons below. *)
Section Items.

Context {A : Type}.

Fixpoint lookup_key (k : string) (d : list (string * A)) : option A :=
  match d with
  | [] => None
  | (k', v) :: d' => if String.eqb k k' then Some v else lookup_key k d'
  end.

Variable eq : A → A → bool.

(** Same length and equal elements, position by position. *)
Fixpoint all2 (l1 l2 : list A) : bool :=
  match l1, l2 with
  | [] , [] => true
  | x :: l1', y :: l2' => eq x y && all2 l1' l2'
  | _, _ => false
  end.

(** Every item of [d] has its key in [d2], with an equal value. *)
Fixpoint included (d2 d : list (string * A)) : bool :=
  match d with
  | [] => true
  | (k, x) :: d' =>
      match lookup_key k d2 with
      | Some y => eq x y && included d2 d'
      | None => false
      end
  end.

(** The first position where the elements are unequal decides by [cmp] on
    them; if there is none, [len] decides on the lengths. *)
Fixpoint lex (cmp : A → A → result bool) (len : nat → nat → bool)
    (l1 l2 : list A) : result bool :=
  match l1, l2 with
  | x :: l1', y :: l2' => if eq x y then lex cmp len l1' l2' else cmp x y
  | _, _ => Ok (len (length l1) (length l2))
  end.

End Items.

(** [a == b] on these values never raises.  Values of unrelated types are
    unequal; numbers compare by value across [bool], [int] and [float];
    lists compare element by element, dicts key by key whatever the order.
    Comparison inside a list or dict is by [==] on the elements (that an
    element which is one and the same object counts as equal to itself,
    NaN included, is not modelled: values carry no identity here). *)
Fixpoint py_eq (a b : pyval) {struct a} : bool :=
  match a, b with
  | PNone, PNone => true
  | PStr s, PStr t => String.eqb s t
  | PList l1, PList l2 => all2 py_eq l1 l2
  | PDict d1, PDict d2 =>
      (length d1 =? length d2)%nat && included py_eq d2 d1
  | _, _ =>
      match numeric a, numeric b with
      | Some m, Some n =>
          match num_compare m n with Some Eq => true | _ => false end
      | _, _ => false
      end
  end.

(** [a != b]: for these types, the negation of [==]. *)
Definition py_ne (a b : pyval) : bool := negb (py_eq a b).

(** [a < b], [a <= b], [a > b], [a >= b]: defined between numbers, between
    strings and between lists (by the first pair of unequal elements, else
    by length); every other pairing raises [TypeError]. *)
Fixpoint py_richcmp (op : cmpop) (a b : pyval) {struct a} : result bool :=
  match a, b with
  | PStr s, PStr t => Ok (test_op op (Some (String.compare s t)))
  | PList l1, PList l2 =>
      lex py_eq (py_richcmp op)
        (λ m n, test_op op (Some (Nat.compare m n))) l1 l2
  | _, _ =>
      match numeric a, numeric b with
      | Some m, Some n => Ok (test_op op (num_compare m n))
      | _, _ => Raise TypeError
      end
  end.

Definition py_lt : pyval -> pyval -> result bool := py_richcmp OpLt.
Definition py_gt : pyval -> pyval -> result bool := py_richcmp OpGt.
Definition py_ge : pyval -> pyval -> result bool := py_richcmp OpGe.

(** [v[key]] for a string key: only a dict answers; a list or a string
    wants an integer index, the other types have no subscript. *)
Definition getitem (v : pyval) (key : string) : result pyval :=
  match v with
  | PDict d =>
      match lookup_key key d with
      | Some x => Ok x
      | None => Raise (KeyError key)
      end
  | _ => Raise TypeError
  end.

(** The elements a [for] loop draws from [v]: the items of a list, the keys
    of a dict, the characters of a string; the other types do not iterate. *)
Definition iter (v : pyval) : result (list pyval) :=
  match v with
  | PList l => Ok l
  | PDict d => Ok (map (fun kv => PStr (fst kv)) d)
  | PStr s => Ok (map (fun c => PStr (String c EmptyString)) (list_ascii_of_string s))
  | _ => Raise TypeError
  end.

(** *** Values that equal themselves *)

Fixpoint distinct (ks : list string) : bool :=
  match ks with
  | [] => true
  | k :: ks' => negb (existsb (String.eqb k) ks') && distinct ks'
  end.

(** A value as [json.load] builds it, with no NaN in it: no dict in it has
    a key twice, no float in it is NaN. *)
Fixpoint regular (v : pyval) : bool :=
  match v with
  | PFloat S754_nan => false
  | PList l => forallb regular l
  | PDict d => distinct (map fst d) && forallb (λ kv, regular (snd kv)) d
  | _ => true
  end.

(** Induction on values, through the lists and dicts they nest. *)
Section Induction.

Variable P : pyval → Prop.
Hypothesis none_case : P PNone.
Hypothesis bool_case : ∀ b, P (PBool b).
Hypothesis int_case : ∀ n, P (PInt n).
Hypothesis float_case : ∀ x, P (PFloat x).
Hypothesis str_case : ∀ s, P (PStr s).
Hypothesis list_case : ∀ l, Forall P l → P (PList l).
Hypothesis dict_case : ∀ d, Forall (λ kv, P (snd kv)) d → P (PDict d).

Fixpoint pyval_ind (v : pyval) : P v :=
  match v with
  | PNone => none_case
  | PBool b => bool_case b
  | PInt n => int_case n
  | PFloat x => float_case x
  | PStr s => str_case s
  | PList l =>
      list_case l
        ((fix items (l : list pyval) : Forall P l :=
            match l with
            | [] => List.Forall_nil P
            | x :: l' => List.Forall_cons P x l' (pyval_ind x) (items l')
            end) l)
  | PDict d =>
      dict_case d
        ((fix items (d : list (string * pyval)) : Forall (λ kv, P (snd kv)) d :=
            match d with
            | [] => List.Forall_nil _
            | kv :: d' =>
                List.Forall_cons (λ kv, P (snd kv)) kv d'
                  (pyval_ind (snd kv)) (items d')
            end) d)
  end.

End Induction.

End Py.
Import Py.

(** ** class Vacancy *)

Module Vacancy.

(** An instance: its [__dict__] has the four attributes [__init__] sets. *)
Record t := mk {
  title : pyval;
  url : pyval;
  salary : pyval;
  description : pyval
}.

(** [Vacancy(title, url, salary, description)]. *)
Definition __init__ (title url salary description : pyval) : t :=
  {| title := title;
     url := url;
     salary := py_or salary (PInt 0);
     description := description |}.

Definition __eq__ (self other : t) : bool :=
  py_eq (salary self) (salary other).

Definition __lt__ (self other : t) : result bool :=
  py_lt (salary self) (salary other).

Definition __gt__ (self other : t) : result bool :=
  py_gt (salary self) (salary other).

Definition validate (self : t) : result unit :=
  if negb (type_in (type_of (salary self)) [TInt; TFloat]) then
    Raise (ValueError "Salary must be a number")
  else if negb (isinstance (title self) TStr) then
    Raise (ValueError "Title must be a string")
  else if negb (isinstance (url self) TStr) then
    Raise (ValueError "URL must be a string")
  else if negb (isinstance (description self) TStr) then
    Raise (ValueError "Description must be a string")
  else Ok tt.

(** [self.__dict__], in the order [__init__] assigns the attributes. *)
Definition __dict__ (self : t) : pyval :=
  PDict [("title", title self); ("url", url self);
         ("salary", salary self); ("description", description self)].

Definition parameters : list string :=
  ["title"; "url"; "salary"; "description"].

(** The call of [Vacancy] with the dict [v] unpacked as keyword arguments:
    [v] has to be a mapping that names each parameter of [__init__] and
    nothing else; any other call is a [TypeError]. *)
Definition from_kwargs (v : pyval) : result t :=
  match v with
  | PDict d =>
      if forallb (fun kv => bool_decide (fst kv ∈ parameters)) d then
        match lookup_key "title" d, lookup_key "url" d,
              lookup_key "salary" d, lookup_key "description" d with
        | Some a, Some b, Some c, Some e => Ok (__init__ a b c e)
        | _, _, _, _ => Raise TypeError
        end
      else Raise TypeError
  | _ => Raise TypeError
  end.

End Vacancy.

(** ** class HhVacancyAPI *)

Module HhVacancyAPI.

Definition API_URL : string := "https://api.hh.ru/vacancies".

(** What [requests.get] sends and what it gets back.  The body of a
    response is kept as the value its text denotes as JSON, if any. *)
Record request := {
  req_url : string;
  req_headers : list (string * string);
  req_params : list (string * pyval)
}.

Record response := {
  status_code : Z;
  body : option pyval
}.

(** [response.json()]. *)
Definition json (r : response) : result pyval :=
  match body r with
  | Some doc => Ok doc
  | None => Raise JSONDecodeError
  end.

Record t := { api_key : string }.

(** [get_vacancies(search_query, page)], over the remote [requests_get]
    answers for. *)
Definition get_vacancies (requests_get : request -> response)
    (self : t) (search_query : string) (page : Z) : result pyval :=
  let headers := [("Authorization", "Bearer " +:+ api_key self)] in
  let params := [("text", PStr search_query); ("page", PInt page)] in
  let response :=
    requests_get {| req_url := API_URL; req_headers := headers;
                    req_params := params |} in
  if status_code response =? 200 then
    doc ← json response; getitem doc "items"
  else
    Raise (Exception ("Error getting vacancies: " +:+ pretty (status_code response))).

End HhVacancyAPI.

(** ** The file system under the storage *)

Module FS.

(** The text of a regular file, kept as what [json.load] makes of it: the
    JSON document that [json.dump] writes for [doc]; a text that is no JSON
    document (an empty file is such a text); or bytes that are no text at
    all.  [json.dump] followed by [json.load] is the identity on [pyval]. *)
Inductive content :=
| Json (doc : pyval)
| NotJson
| NotText.

Record file := {
  text : content;
  readable : bool;
  writable : bool
}.

(** What a path names: a regular file or a directory. *)
Inductive node :=
| Regular (f : file)
| Directory.

(** What creating a file does at a path that names nothing: the file is
    created, or the directory it would be in is missing, or that directory
    may not be written. *)
Inductive creation :=
| Allowed
| NoDirectory
| Forbidden.

(** What the paths name, and what creating a file does where nothing is. *)
Record t := {
  files : gmap string node;
  creatable : creation
}.

Definition set_text (txt : content) (f : file) : file :=
  {| text := txt; readable := readable f; writable := writable f |}.

Definition update (path : string) (f : file) (fs : t) : t :=
  {| files := <[path := Regular f]> (files fs); creatable := creatable fs |}.

(** The text of the regular file at [path] replaced; a directory, or a
    path that names nothing, is left alone. *)
Definition write (path : string) (txt : content) (fs : t) : t :=
  {| files :=
       alter (λ n, match n with
                   | Regular f => Regular (set_text txt f)
                   | Directory => Directory
                   end) path (files fs);
     creatable := creatable fs |}.

End FS.

(** Code that reads and writes files: a result together with the file
    system it leaves, which an exception does not roll back. *)
Definition io (A : Type) : Type := FS.t -> result A * FS.t.

#[export] Instance io_ret : MRet io := fun A a fs => (Ok a, fs).
#[export] Instance io_bind : MBind io := fun A B f m fs =>
  match m fs with
  | (Ok a, fs') => f a fs'
  | (Raise e, fs') => (Raise e, fs')
  end.

Definition lift {A : Type} (r : result A) : io A := fun fs => (r, fs).

(** [open(path, "r")]: the handle gives the text of the file.  The call
    raises the [OSError] of what it finds: nothing at the path, a
    directory, or a file that may not be read. *)
Definition open_r (path : string) : io FS.content := fun fs =>
  match FS.files fs !! path with
  | None => (Raise (FileNotFoundError path), fs)
  | Some FS.Directory => (Raise (IsADirectoryError path), fs)
  | Some (FS.Regular f) =>
      if FS.readable f then (Ok (FS.text f), fs)
      else (Raise (PermissionError path), fs)
  end.

(** [open(path, "w")]: the file is created if there is none, and emptied.
    The call raises the [OSError] of what stops it: a missing directory, a
    directory that may not be written, a directory at the path itself, or
    a file that may not be written. *)
Definition open_w (path : string) : io unit := fun fs =>
  match FS.files fs !! path with
  | None =>
      match FS.creatable fs with
      | FS.Allowed =>
          (Ok tt, FS.update path {| FS.text := FS.NotJson; FS.readable := true;
                                    FS.writable := true |} fs)
      | FS.NoDirectory => (Raise (FileNotFoundError path), fs)
      | FS.Forbidden => (Raise (PermissionError path), fs)
      end
  | Some FS.Directory => (Raise (IsADirectoryError path), fs)
  | Some (FS.Regular f) =>
      if FS.writable f then (Ok tt, FS.update path (FS.set_text FS.NotJson f) fs)
      else (Raise (PermissionError path), fs)
  end.

(** [json.load(f)] on the text of an opened file. *)
Definition json_load (txt : FS.content) : result pyval :=
  match txt with
  | FS.Json doc => Ok doc
  | FS.NotJson => Raise JSONDecodeError
  | FS.NotText => Raise UnicodeDecodeError
  end.

(** [json.dump(doc, f)] into the file opened at [path]. *)
Definition json_dump (doc : pyval) (path : string) : io unit := fun fs =>
  (Ok tt, FS.write path (FS.Json doc) fs).

(** ** class JsonVacancyStorage *)

Module JsonVacancyStorage.

Record t := { file_name : string }.

Definition add_vacancies (self : t) (vacancies : list Vacancy.t) : io unit :=
  _ ← open_w (file_name self);
  json_dump (PList (map Vacancy.__dict__ vacancies)) (file_name self).

(** The comprehension of [get_vacancies]: for each [v] in turn, the test
    [v[key] == value], then the call of [Vacancy] on those that pass. *)
Fixpoint select (key : string) (value : pyval) (vacancies : list pyval)
  : result (list Vacancy.t) :=
  match vacancies with
  | [] => Ok []
  | v :: rest =>
      x ← getitem v key;
      if py_eq x value then
        o ← Vacancy.from_kwargs v;
        os ← select key value rest;
        Ok (o :: os)
      else select key value rest
  end.

Definition get_vacancies (self : t) (key : string) (value : pyval)
  : io (list Vacancy.t) :=
  f ← open_r (file_name self);
  vacancies ← lift (json_load f);
  lift (vs ← iter vacancies; select key value vs).

(** The comprehension of [delete_vacancies]: the [v] with
    [v[key] != value], in order. *)
Fixpoint reject (key : string) (value : pyval) (vacancies : list pyval)
  : result (list pyval) :=
  match vacancies with
  | [] => Ok []
  | v :: rest =>
      x ← getitem v key;
      if py_ne x value then
        vs ← reject key value rest;
        Ok (v :: vs)
      else reject key value rest
  end.

Definition delete_vacancies (self : t) (key : string) (value : pyval)
  : io unit :=
  f ← open_r (file_name self);
  vacancies ← lift (json_load f);
  kept ← lift (vs ← iter vacancies; reject key value vs);
  _ ← open_w (file_name self);
  json_dump (PList kept) (file_name self).

End JsonVacancyStorage.

(** ** Vocabulary of the statements *)

(** The four fields of a vacancy record, their keys in a stored record and
    their values in an instance. *)
Inductive field := Title | Url | Salary | Description.

Definition field_key (f : field) : string :=
  match f with
  | Title => "title"
  | Url => "url"
  | Salary => "salary"
  | Description => "description"
  end.

Definition field_value (f : field) (v : Vacancy.t) : pyval :=
  match f with
  | Title => Vacancy.title v
  | Url => Vacancy.url v
  | Salary => Vacancy.salary v
  | Description => Vacancy.description v
  end.

(** A number is an [int] or a [float]; [bool] is not counted as one. *)
Definition is_number (v : pyval) : bool :=
  match v with
  | PInt _ | PFloat _ => true
  | _ => false
  end.

Definition is_string (v : pyval) : bool :=
  match v with
  | PStr _ => true
  | _ => false
  end.

(** A number that answers [True] to [v >= 0]. *)
Definition nonneg_number (v : pyval) : bool :=
  is_number v && match py_ge v (PInt 0) with Ok b => b | Raise _ => false end.

(** The salary the specification expects for the input [s]:
    [s if s is a number else 0]. *)
Definition spec_salary (s : pyval) : pyval :=
  if is_number s then s else PInt 0.

(** The type contract of each field, and the message [validate] raises for
    the field that breaks it. *)
Definition well_typed (f : field) (v : Vacancy.t) : bool :=
  match f with
  | Salary => is_number (Vacancy.salary v)
  | _ => is_string (field_value f v)
  end.

Definition field_message (f : field) : string :=
  match f with
  | Title => "Title must be a string"
  | Url => "URL must be a string"
  | Salary => "Salary must be a number"
  | Description => "Description must be a string"
  end.

(** An instance as the constructor leaves it. *)
Definition constructed (v : Vacancy.t) : Prop :=
  ∃ t u s d, v = Vacancy.__init__ t u s d.

(** The instance [get_vacancies] rebuilds from the stored record of [v]. *)
Definition reloaded (v : Vacancy.t) : Vacancy.t :=
  Vacancy.__init__ (Vacancy.title v) (Vacancy.url v) (Vacancy.salary v)
    (Vacancy.description v).

(** The document [add_vacancies] writes for a sequence of vacancies. *)
Definition records (vs : list Vacancy.t) : pyval :=
  PList (map Vacancy.__dict__ vs).

(** What the backing file of a storage holds, and whether it can be opened
    for reading and for writing. *)
Definition stored (self : JsonVacancyStorage.t) (fs : FS.t) : option pyval :=
  match FS.files fs !! JsonVacancyStorage.file_name self with
  | Some (FS.Regular f) =>
      match FS.text f with
      | FS.Json doc => Some doc
      | _ => None
      end
  | _ => None
  end.

Definition can_read (self : JsonVacancyStorage.t) (fs : FS.t) : bool :=
  match FS.files fs !! JsonVacancyStorage.file_name self with
  | Some (FS.Regular f) => FS.readable f
  | _ => false
  end.

Definition can_write (self : JsonVacancyStorage.t) (fs : FS.t) : bool :=
  match FS.files fs !! JsonVacancyStorage.file_name self with
  | Some (FS.Regular f) => FS.writable f
  | Some FS.Directory => false
  | None => match FS.creatable fs with FS.Allowed => true | _ => false end
  end.

(** The errors of an unavailable backing medium, which the code lets
    through as they are: the [OSError] of an [open] that fails, of whatever
    class, and the error of a [json.load] that cannot decode or parse the
    text. *)
Definition StorageUnavailableError (e : exn) : bool :=
  match e with
  | FileNotFoundError _ | PermissionError _ | IsADirectoryError _
  | JSONDecodeError | UnicodeDecodeError => true
  | _ => false
  end.

(** Whether the record [r] has the field [key], and whether that field
    equals [value]. *)
Definition has_key (key : string) (r : pyval) : bool :=
  match getitem r key with
  | Ok _ => true
  | Raise _ => false
  end.

Definition matches (key : string) (value : pyval) (r : pyval) : bool :=
  match getitem r key with
  | Ok x => py_eq x value
  | Raise _ => false
  end.

(** The file system once the backing file has been rewritten to hold
    [doc]: the file keeps its permissions, or is a fresh file if there was
    none; nothing else changes. *)
Definition rewritten (self : JsonVacancyStorage.t) (doc : pyval) (fs : FS.t)
  : FS.t :=
  let path := JsonVacancyStorage.file_name self in
  FS.update path
    match FS.files fs !! path with
    | Some (FS.Regular f) => FS.set_text (FS.Json doc) f
    | _ => {| FS.text := FS.Json doc; FS.readable := true; FS.writable := true |}
    end fs.

(** ** The interaction loop *)

Module Console.

(** What the program writes: a line by [print], a prompt by [input]. *)
Inductive written :=
| Line (s : string)
| Prompt (s : string).

(** The exceptions that end the loop: those of the classes above, the
    [AttributeError] of an object with no [__dict__], the [EOFError] of
    [input] at the end of the input, and the [ValueError] of [int] on a text
    that is no integer literal. *)
Inductive failure :=
| Uncaught (e : exn)
| AttributeError
| EOFError
| InvalidLiteral (text : string).

Inductive ending :=
| Exited
| Crashed (f : failure).

(** A run of the program: what it wrote, the file system it left and how
    it ended. *)
Record run := {
  output : list written;
  files_after : FS.t;
  ending_of : ending
}.

Definition emit (ws : list written) (r : run) : run :=
  {| output := ws ++ output r;
     files_after := files_after r;
     ending_of := ending_of r |}.

Definition crash (ws : list written) (fs : FS.t) (f : failure) : run :=
  {| output := ws; files_after := fs; ending_of := Crashed f |}.

End Console.
Import Console.

(** [len(v)]: of a list, a dict or a string. *)
Definition len (v : pyval) : result Z :=
  match v with
  | PList l => Ok (Z.of_nat (length l))
  | PDict d => Ok (Z.of_nat (length d))
  | PStr s => Ok (Z.of_nat (String.length s))
  | _ => Raise TypeError
  end.

(** [JsonVacancyStorage.add_vacancies] as the loop calls it, on the value
    the API client returned.  None of the values of [pyval] has a
    [__dict__]: once the file is opened, and so emptied, the comprehension
    raises [AttributeError] at the first element it draws; only an empty
    sequence is dumped. *)
Definition add_vacancies_items (self : JsonVacancyStorage.t)
    (vacancies : pyval) (fs : FS.t) : option failure * FS.t :=
  match open_w (JsonVacancyStorage.file_name self) fs with
  | (Raise e, fs') => (Some (Uncaught e), fs')
  | (Ok _, fs') =>
      match iter vacancies with
      | Raise e => (Some (Uncaught e), fs')
      | Ok (_ :: _) => (Some AttributeError, fs')
      | Ok [] =>
          (None, snd (json_dump (PList []) (JsonVacancyStorage.file_name self) fs'))
      end
  end.

Section Loop.

(** The remote, and the library functions the loop formats, parses and
    sorts with: [str] on a value, [int] on a line of input ([None] when it
    raises [ValueError]) and [list.sort(reverse=True)], which compares by
    [__lt__] and raises what a comparison raises. *)
Variable requests_get : HhVacancyAPI.request → HhVacancyAPI.response.
Variable py_str : pyval → string.
Variable py_int : string → option Z.
Variable sort_reverse : list Vacancy.t → result (list Vacancy.t).

Variable vacancy_api : HhVacancyAPI.t.
Variable vacancy_storage : JsonVacancyStorage.t.

Definition menu : list written :=
  [Line (String "010" "What do you want to do?");
   Line "1. Search for vacancies";
   Line "2. Get top N vacancies by salary";
   Line "3. Get vacancies with a keyword in the description";
   Line "4. Exit";
   Prompt "> "].

(** The lines of the top-N listing: the first [min(top_n, len(vacancies))]
    vacancies, numbered from 1. *)
Definition top_lines (top_n : Z) (vacancies : list Vacancy.t) : list written :=
  imap (λ i v,
          Line (pretty (Z.of_nat i + 1) +:+ ". " +:+ py_str (Vacancy.title v)
                +:+ " - " +:+ py_str (Vacancy.salary v)))
       (take (Z.to_nat (Z.min top_n (Z.of_nat (length vacancies)))) vacancies).

Definition keyword_lines (vacancies : list Vacancy.t) : list written :=
  map (λ v, Line (py_str (Vacancy.title v) +:+ " - " +:+ py_str (Vacancy.url v)))
      vacancies.

(** [interact_with_user(vacancy_api, vacancy_storage)] on the lines the
    user enters.  Each turn of the loop reads at least one line, and the
    loop ends at choice 4 or at the first exception. *)
Fixpoint interact_with_user (inputs : list string) (fs : FS.t) : run :=
  match inputs with
  | [] => crash menu fs EOFError
  | choice :: rest =>
      if String.eqb choice "1" then
        let asked := (menu ++ [Prompt "Enter search query: "])%list in
        match rest with
        | [] => crash asked fs EOFError
        | search_query :: rest' =>
            match HhVacancyAPI.get_vacancies requests_get vacancy_api
                    search_query 0 with
            | Raise e => crash asked fs (Uncaught e)
            | Ok vacancies =>
                match len vacancies with
                | Raise e => crash asked fs (Uncaught e)
                | Ok n =>
                    let found :=
                      (asked ++ [Line ("Found " +:+ pretty n +:+ " vacancies")])%list in
                    match add_vacancies_items vacancy_storage vacancies fs with
                    | (Some f, fs') => crash found fs' f
                    | (None, fs') => emit found (interact_with_user rest' fs')
                    end
                end
            end
        end
      else if String.eqb choice "2" then
        let asked := (menu ++ [Prompt "Enter N: "])%list in
        match rest with
        | [] => crash asked fs EOFError
        | line :: rest' =>
            match py_int line with
            | None => crash asked fs (InvalidLiteral line)
            | Some top_n =>
                match JsonVacancyStorage.get_vacancies vacancy_storage
                        "salary" (PStr "max") fs with
                | (Raise e, fs') => crash asked fs' (Uncaught e)
                | (Ok vacancies, fs') =>
                    match sort_reverse vacancies with
                    | Raise e => crash asked fs' (Uncaught e)
                    | Ok sorted =>
                        emit (asked ++ top_lines top_n sorted)%list
                          (interact_with_user rest' fs')
                    end
                end
            end
        end
      else if String.eqb choice "3" then
        let asked := (menu ++ [Prompt "Enter keyword: "])%list in
        match rest with
        | [] => crash asked fs EOFError
        | keyword :: rest' =>
            match JsonVacancyStorage.get_vacancies vacancy_storage
                    "description" (PStr keyword) fs with
            | (Raise e, fs') => crash asked fs' (Uncaught e)
            | (Ok vacancies, fs') =>
                emit (asked
                      ++ [Line ("Found " +:+ pretty (Z.of_nat (length vacancies))
                                +:+ " vacancies with the keyword '" +:+ keyword
                                +:+ "'")]
                      ++ keyword_lines vacancies)%list
                  (interact_with_user rest' fs')
            end
        end
      else if String.eqb choice "4" then
        {| output := menu; files_after := fs; ending_of := Exited |}
      else
        emit (menu ++ [Line "Invalid choice"])%list (interact_with_user rest fs)
  end.

End Loop.

(** [main()]. *)
Definition main (requests_get : HhVacancyAPI.request → HhVacancyAPI.response)
    (py_str : pyval → string) (py_int : string → option Z)
    (sort_reverse : list Vacancy.t → result (list Vacancy.t))
    (inputs : list string) (fs : FS.t) : run :=
  let vacancy_api := {| HhVacancyAPI.api_key := "YOUR_API_KEY" |} in
  let vacancy_storage := {| JsonVacancyStorage.file_name := "vacancies.json" |} in
  interact_with_user requests_get py_str py_int sort_reverse
    vacancy_api vacancy_storage inputs fs.

(** A value that is neither a list nor a dict. *)
Definition is_scalar (v : pyval) : bool :=
  match v with
  | PList _ | PDict _ => false
  | _ => true
  end.

(** The invariant of the loop on the backing file: the file system is as
    it was, or the file holds the empty list, or it holds no JSON document. *)
Definition never_stores (self : JsonVacancyStorage.t) (fs fs' : FS.t) : Prop :=
  fs' = fs ∨ stored self fs' = Some (PList []) ∨ stored self fs' = None.

(** ** Equality of values *)

Section EqualityFacts.

Lemma SFcompare_refl (x : spec_float) :
  x ≠ S754_nan → SFcompare x x = Some Eq.
Proof.
  destruct x as [sg | sg | | sg m e]; [| | done |]; intros _; cbn.
  - done.
  - by destruct sg.
  - destruct sg; by rewrite Z.compare_refl, Pos.compare_cont_refl.
Qed.

Lemma lookup_key_distinct {A} (d : list (string * A)) k x :
  distinct (map fst d) = true → (k, x) ∈ d → lookup_key k d = Some x.
Proof.
  induction d as [| [k' x'] d IH]; cbn [map fst distinct lookup_key].
  - intros _ H. by apply elem_of_nil in H.
  - intros [Hk Hd]%andb_true_iff [[= -> ->] | Hin]%elem_of_cons.
    + by rewrite String.eqb_refl.
    + destruct (String.eqb_spec k k') as [-> | Hne]; [| by apply IH].
      apply negb_true_iff in Hk.
      assert (existsb (String.eqb k') (map fst d) = true); [| congruence].
      apply existsb_exists. exists k'. split; [| apply String.eqb_refl].
      apply in_map_iff. exists (k', x). by rewrite <- list_elem_of_In.
Qed.

(** Every value with no NaN in it is equal to itself. *)
Lemma py_eq_refl (v : pyval) : regular v = true → py_eq v v = true.
Proof.
  induction v as [| b | n | x | s | l IH | d IH] using pyval_ind;
    cbn [py_eq regular numeric num_compare]; intros Hreg.
  - done.
  - by rewrite Z.compare_refl.
  - by rewrite Z.compare_refl.
  - rewrite SFcompare_refl; [done |]. by destruct x.
  - apply String.eqb_refl.
  - induction IH as [| x l Hx _ IHl]; [done |].
    cbn in Hreg |- *. apply andb_true_iff in Hreg as [Hrx Hrl].
    by rewrite Hx, IHl.
  - apply andb_true_iff in Hreg as [Hd Hreg].
    rewrite Nat.eqb_refl. cbn [andb].
    assert (Hsub : ∀ d', (∀ kx, kx ∈ d' → kx ∈ d) →
                         Forall (λ kv, regular (snd kv) = true → py_eq (snd kv) (snd kv) = true) d' →
                         forallb (λ kv, regular (snd kv)) d' = true →
                         included py_eq d d' = true).
    { induction d' as [| [k x] d' IHd']; [done |].
      intros Hin Hall Hr. cbn [included].
      rewrite (lookup_key_distinct d k x Hd (Hin _ (list_elem_of_here _ _))).
      apply Forall_cons in Hall as [Hx Hall].
      cbn in Hr. apply andb_true_iff in Hr as [Hrx Hr].
      cbn [snd] in Hx. rewrite (Hx Hrx). cbn [andb].
      apply IHd'; [| done | done].
      intros kx Hkx. apply Hin. by right. }
    by apply Hsub.
Qed.

End EqualityFacts.

Example eq_int_float_zero : py_eq (PInt 0) (PFloat (S754_zero true)) = true.
Proof. reflexivity. Qed.

Example eq_bool_int : py_eq (PBool true) (PInt 1) = true.
Proof. reflexivity. Qed.

Example eq_nan : py_eq (PFloat S754_nan) (PFloat S754_nan) = false.
Proof. reflexivity. Qed.

Example eq_dict_order :
  py_eq (PDict [("a", PInt 1); ("b", PNone)]) (PDict [("b", PNone); ("a", PInt 1)])
  = true.
Proof. reflexivity. Qed.

(** [3 < 3.5], and a string against an int has no order. *)
Example lt_int_float : py_lt (PInt 3) (PFloat (S754_finite false 7 (-1))) = Ok true.
Proof. reflexivity. Qed.

Example lt_str_int : py_lt (PStr "max") (PInt 1000) = Raise TypeError.
Proof. reflexivity. Qed.

(** ** The Vacancy model *)

Section VacancyFacts.

Implicit Types (t u s d : pyval) (v a b : Vacancy.t).

Lemma init_salary_truthy t u s d :
  truthy s = true → Vacancy.salary (Vacancy.__init__ t u s d) = s.
Proof. intros H. cbn. unfold py_or. by rewrite H. Qed.

Lemma init_salary_falsy t u s d :
  truthy s = false → Vacancy.salary (Vacancy.__init__ t u s d) = PInt 0.
Proof. intros H. cbn. unfold py_or. by rewrite H. Qed.

(** A stored salary is never falsy unless it is the int 0. *)
Lemma init_salary_normal t u s d :
  let x := Vacancy.salary (Vacancy.__init__ t u s d) in
  truthy x = true ∨ x = PInt 0.
Proof.
  cbn. unfold py_or. destruct (truthy s) eqn:E; [left | right]; done.
Qed.

Lemma constructed_reloaded v : constructed v → reloaded v = v.
Proof.
  intros (t & u & s & d & ->). unfold reloaded. cbn.
  unfold Vacancy.__init__. f_equal.
  unfold py_or at 1. destruct (truthy (py_or s (PInt 0))) eqn:E; [done |].
  unfold py_or in *. destruct (truthy s) eqn:E'; [congruence | done].
Qed.

Lemma reloaded_constructed v : constructed (reloaded v).
Proof. unfold reloaded. by eexists _, _, _, _. Qed.

Lemma type_in_number s : type_in (type_of s) [TInt; TFloat] = is_number s.
Proof. by destruct s. Qed.

Lemma isinstance_str s : isinstance s TStr = is_string s.
Proof. by destruct s. Qed.

End VacancyFacts.

(** C4. For a salary input [s] that is a number or [None], the constructor
    stores [s if s is a number else 0]: the input itself when it is a number
    other than a float zero, and the int 0 for [None] and for a float zero,
    which is the same number ([0 == 0.0]).  The attribute is never [None]. *)
Theorem Vacancy_init_salary (t u s d : pyval) :
  is_number s = true ∨ s = PNone →
  let v := Vacancy.__init__ t u s d in
  (Vacancy.salary v = spec_salary s
   ∨ (∃ sign, s = PFloat (S754_zero sign))
     ∧ Vacancy.salary v = PInt 0
     ∧ py_eq (Vacancy.salary v) (spec_salary s) = true)
  ∧ (s = PNone → Vacancy.salary v = PInt 0)
  ∧ Vacancy.salary v ≠ PNone.
Proof.
  intros Hs v. split; [| split].
  - destruct Hs as [Hs | ->]; [| by left].
    destruct s as [| | n | x | | |]; try discriminate.
    + left. subst v. cbn. unfold py_or. cbn.
      destruct (Z.eqb_spec n 0) as [-> |]; done.
    + destruct x as [sg | | |]; [right | left ..]; try done.
      split; [by exists sg |]. by destruct sg.
  - by intros ->.
  - subst v. cbn. unfold py_or. by destruct (truthy s) eqn:E; [destruct s |].
Qed.

Lemma Vacancy_init_salary_witness :
  Vacancy.salary (Vacancy.__init__ (PStr "Eng") (PStr "u1") PNone (PStr "python"))
  = PInt 0.
Proof.
  assert (Hs : is_number PNone = true ∨ PNone = PNone)
    by (right; reflexivity).
  destruct (Vacancy_init_salary (PStr "Eng") (PStr "u1") PNone
              (PStr "python") Hs) as (_ & H & _).
  apply H. reflexivity.
Defined.

(** C8, as stated, fails: a negative salary is stored as it is. *)
Lemma Vacancy_init_negative_salary :
  let v := Vacancy.__init__ (PStr "Eng") (PStr "u1") (PInt (-5)) (PStr "python") in
  Vacancy.salary v = PInt (-5) ∧ nonneg_number (Vacancy.salary v) = false.
Proof. split; reflexivity. Qed.

(** C8, amended.  Constructed from a salary that is a non-negative number
    or [None], a vacancy has a non-negative number for its salary; from any
    other number (a negative one, or NaN) it keeps that number unchanged. *)
Theorem Vacancy_init_nonneg (t u s d : pyval) :
  is_number s = true ∨ s = PNone →
  let v := Vacancy.__init__ t u s d in
  (nonneg_number s = true ∨ s = PNone → nonneg_number (Vacancy.salary v) = true)
  ∧ (nonneg_number s = false → s ≠ PNone → Vacancy.salary v = s)
  ∧ is_number (Vacancy.salary v) = true.
Proof.
  intros Hs v. subst v. destruct Hs as [Hs | ->].
  2: { cbn. split; [done | split; [| done]]. by intros _ []. }
  destruct (truthy s) eqn:E.
  - rewrite (init_salary_truthy _ _ _ _ E). split; [| done].
    intros [H | ->]; [done | discriminate].
  - rewrite (init_salary_falsy _ _ _ _ E). split; [done | split; [| done]].
    intros Hn _. destruct s as [| | n | x | | |]; try discriminate.
    + cbn in E. apply negb_false_iff, Z.eqb_eq in E. by subst.
    + by destruct x as [[] | | |].
Qed.

Lemma Vacancy_init_nonneg_witness :
  nonneg_number
    (Vacancy.salary (Vacancy.__init__ (PStr "Eng") (PStr "u1") (PInt 1000) (PStr "python")))
  = true.
Proof.
  assert (Hs : is_number (PInt 1000) = true ∨ PInt 1000 = PNone)
    by (left; reflexivity).
  destruct (Vacancy_init_nonneg (PStr "Eng") (PStr "u1") (PInt 1000)
              (PStr "python") Hs) as (H & _ & _).
  apply H. left. reflexivity.
Defined.

(** C5. The three comparisons of two vacancies are the comparisons of their
    salaries: [a < b], [a > b] and [a == b] answer (or raise) what the same
    operator answers on the salaries, so any two pairs of vacancies with the
    same salaries compare alike whatever their other fields are; on int
    salaries the answers are the order and the equality of the integers. *)
Theorem Vacancy_compare_by_salary (a b : Vacancy.t) :
  (Vacancy.__lt__ a b = py_lt (Vacancy.salary a) (Vacancy.salary b)
   ∧ Vacancy.__gt__ a b = py_gt (Vacancy.salary a) (Vacancy.salary b)
   ∧ Vacancy.__eq__ a b = py_eq (Vacancy.salary a) (Vacancy.salary b))
  ∧ (∀ t u d t' u' d',
       let a' := Vacancy.mk t u (Vacancy.salary a) d in
       let b' := Vacancy.mk t' u' (Vacancy.salary b) d' in
       Vacancy.__lt__ a' b' = Vacancy.__lt__ a b
       ∧ Vacancy.__gt__ a' b' = Vacancy.__gt__ a b
       ∧ Vacancy.__eq__ a' b' = Vacancy.__eq__ a b)
  ∧ (∀ x y : Z,
       Vacancy.salary a = PInt x → Vacancy.salary b = PInt y →
       Vacancy.__lt__ a b = Ok (x <? y)
       ∧ Vacancy.__gt__ a b = Ok (x >? y)
       ∧ Vacancy.__eq__ a b = (x =? y)).
Proof.
  split; [done | split; [done |]].
  intros x y Ha Hb.
  unfold Vacancy.__lt__, Vacancy.__gt__, Vacancy.__eq__, py_lt, py_gt.
  rewrite Ha, Hb. cbn.
  split; [| split].
  - unfold Z.ltb. by destruct (x ?= y).
  - unfold Z.gtb. by destruct (x ?= y).
  - destruct (Z.eqb_spec x y) as [-> | Hne]; [by rewrite Z.compare_refl |].
    destruct (x ?= y) eqn:E; try done. by apply Z.compare_eq in E.
Qed.

(** C6. [validate] returns without raising exactly when the salary is a
    number and the title, the url and the description are strings; in every
    other case it raises the [ValueError] whose message names a field that
    breaks its contract. *)
Theorem Vacancy_validate_contract (v : Vacancy.t) :
  (Vacancy.validate v = Ok tt ↔ ∀ f, well_typed f v = true)
  ∧ (∀ e, Vacancy.validate v = Raise e →
       ∃ f, well_typed f v = false ∧ e = ValueError (field_message f))
  ∧ ((∃ f, well_typed f v = false) → ∃ e, Vacancy.validate v = Raise e).
Proof.
  assert (Hall : (∀ f, well_typed f v = true) ↔
                 is_number (Vacancy.salary v) = true
                 ∧ is_string (Vacancy.title v) = true
                 ∧ is_string (Vacancy.url v) = true
                 ∧ is_string (Vacancy.description v) = true).
  { split.
    - intros H. repeat split.
      + apply (H Salary). + apply (H Title).
      + apply (H Url). + apply (H Description).
    - intros (? & ? & ? & ?) []; done. }
  unfold Vacancy.validate.
  rewrite type_in_number, !isinstance_str.
  destruct (is_number (Vacancy.salary v)) eqn:Hs; cbn.
  2: { split; [| split].
       - rewrite Hall. split; [done | by intros []].
       - intros e [= <-]. by exists Salary.
       - by eexists. }
  destruct (is_string (Vacancy.title v)) eqn:Ht; cbn.
  2: { split; [| split].
       - rewrite Hall. split; [done | by intros (_ & ? & _)].
       - intros e [= <-]. by exists Title.
       - by eexists. }
  destruct (is_string (Vacancy.url v)) eqn:Hu; cbn.
  2: { split; [| split].
       - rewrite Hall. split; [done | by intros (_ & _ & ? & _)].
       - intros e [= <-]. by exists Url.
       - by eexists. }
  destruct (is_string (Vacancy.description v)) eqn:Hd; cbn.
  2: { split; [| split].
       - rewrite Hall. split; [done | by intros (_ & _ & _ & ?)].
       - intros e [= <-]. by exists Description.
       - by eexists. }
  split; [| split].
  - by rewrite Hall.
  - done.
  - intros [f Hf]. destruct f; cbn in Hf; congruence.
Qed.

(** ** The API client *)

(** C7, as stated, fails: a 2xx status other than 200 is an error, whatever
    the body carries. *)
Lemma HhVacancyAPI_created_is_error :
  let r := {| HhVacancyAPI.status_code := 201;
              HhVacancyAPI.body :=
                Some (PDict [("items", PList [PDict [("title", PStr "Eng")]])]) |} in
  (200 <= HhVacancyAPI.status_code r < 300)
  ∧ HhVacancyAPI.get_vacancies (λ _, r)
      {| HhVacancyAPI.api_key := "YOUR_API_KEY" |} "python" 0
    = Raise (Exception "Error getting vacancies: 201").
Proof. split; [cbn; lia | reflexivity]. Qed.

(** C7, amended.  [get_vacancies] sends one request, with the bearer
    credential and the query and page as parameters, and returns the value
    of the [items] field of the response exactly when the status code is 200
    and the body is a JSON object with that field; for every other status
    code, the other 2xx codes among them, it raises the error whose message
    carries the status code. *)
Theorem HhVacancyAPI_get_vacancies_status
    (requests_get : HhVacancyAPI.request → HhVacancyAPI.response)
    (self : HhVacancyAPI.t) (search_query : string) (page : Z) :
  ∃ req,
    (HhVacancyAPI.req_url req = HhVacancyAPI.API_URL
     ∧ HhVacancyAPI.req_headers req
       = [("Authorization", "Bearer " +:+ HhVacancyAPI.api_key self)]
     ∧ HhVacancyAPI.req_params req
       = [("text", PStr search_query); ("page", PInt page)])
    ∧ let r := requests_get req in
      let out := HhVacancyAPI.get_vacancies requests_get self search_query page in
      (∀ items, out = Ok items ↔
         HhVacancyAPI.status_code r = 200
         ∧ ∃ d, HhVacancyAPI.body r = Some (PDict d)
                ∧ lookup_key "items" d = Some items)
      ∧ (HhVacancyAPI.status_code r ≠ 200 →
         out = Raise (Exception ("Error getting vacancies: "
                                 +:+ pretty (HhVacancyAPI.status_code r)))).
Proof.
  exists {| HhVacancyAPI.req_url := HhVacancyAPI.API_URL;
            HhVacancyAPI.req_headers :=
              [("Authorization", "Bearer " +:+ HhVacancyAPI.api_key self)];
            HhVacancyAPI.req_params :=
              [("text", PStr search_query); ("page", PInt page)] |}.
  split; [done |].
  unfold HhVacancyAPI.get_vacancies. cbn zeta.
  set (r := requests_get _).
  destruct (Z.eqb_spec (HhVacancyAPI.status_code r) 200) as [Hc | Hc].
  - split; [| done]. intros items.
    unfold HhVacancyAPI.json.
    destruct (HhVacancyAPI.body r) as [doc |] eqn:Hb; cbn.
    + split.
      * intros H. split; [done |]. destruct doc; try discriminate.
        cbn in H. destruct (lookup_key "items" d) eqn:Hk; [| done].
        injection H as ->. by eexists.
      * intros (_ & d & [= ->] & Hk). cbn. by rewrite Hk.
    + split; [done |]. by intros (_ & d & ? & _).
  - split; [| done]. intros items. split; [done | by intros []].
Qed.

(** ** The JSON storage *)

Section StorageFacts.

Variable self : JsonVacancyStorage.t.
Let path := JsonVacancyStorage.file_name self.

Implicit Types (fs : FS.t) (vs : list Vacancy.t) (rs : list pyval)
  (key : string) (value : pyval).

(** Opening for writing and dumping [doc], when the file can be written. *)
Lemma write_ok doc fs :
  can_write self fs = true →
  (_ ← open_w path; json_dump doc path) fs = (Ok tt, rewritten self doc fs).
Proof.
  unfold can_write, rewritten, mbind, io_bind, open_w, json_dump, FS.write,
    FS.update.
  fold path. intros Hw.
  destruct (FS.files fs !! path) as [[f |] |] eqn:Hf; [| done |].
  - rewrite Hw. cbn. by rewrite alter_insert_eq.
  - destruct (FS.creatable fs); [| done ..]. cbn. by rewrite alter_insert_eq.
Qed.

(** When the file cannot be opened for writing, the error is that of the
    [open], and nothing is written. *)
Lemma write_fail doc fs :
  can_write self fs = false →
  ∃ e, (_ ← open_w path; json_dump doc path) fs = (Raise e, fs)
       ∧ StorageUnavailableError e = true.
Proof.
  unfold can_write, mbind, io_bind, open_w. fold path. intros Hw.
  destruct (FS.files fs !! path) as [[f |] |] eqn:Hf.
  - rewrite Hw. by eexists.
  - by eexists.
  - destruct (FS.creatable fs); [done | by eexists ..].
Qed.

Lemma stored_rewritten doc fs : stored self (rewritten self doc fs) = Some doc.
Proof.
  unfold stored, rewritten, FS.update. fold path. cbn.
  rewrite lookup_insert_eq. by destruct (FS.files fs !! path) as [[f |] |].
Qed.

Lemma can_write_rewritten doc fs :
  can_write self fs = true → can_write self (rewritten self doc fs) = true.
Proof.
  unfold can_write, rewritten, FS.update. fold path. cbn.
  rewrite lookup_insert_eq. by destruct (FS.files fs !! path) as [[f |] |].
Qed.

Lemma can_read_rewritten doc fs :
  can_read self (rewritten self doc fs) =
  match FS.files fs !! path with
  | Some (FS.Regular f) => FS.readable f
  | _ => true
  end.
Proof.
  unfold can_read, rewritten, FS.update. fold path. cbn.
  rewrite lookup_insert_eq. by destruct (FS.files fs !! path) as [[f |] |].
Qed.

(** Rewriting twice is rewriting once, with the later document. *)
Lemma rewritten_twice doc doc' fs :
  rewritten self doc' (rewritten self doc fs) = rewritten self doc' fs.
Proof.
  unfold rewritten, FS.update. fold path. cbn.
  rewrite lookup_insert_eq, insert_insert_eq.
  by destruct (FS.files fs !! path) as [[f |] |].
Qed.

Lemma rewritten_other doc fs p :
  p ≠ path → FS.files (rewritten self doc fs) !! p = FS.files fs !! p.
Proof.
  intros Hp. unfold rewritten, FS.update. fold path. cbn.
  by rewrite lookup_insert_ne.
Qed.

(** Opening for reading and loading, when the file is there, readable and
    holds a JSON document. *)
Lemma read_ok {A} (k : pyval → io A) doc fs :
  can_read self fs = true → stored self fs = Some doc →
  (f ← open_r path; vacancies ← lift (json_load f); k vacancies) fs = k doc fs.
Proof.
  unfold can_read, stored, mbind at 1 2, io_bind, open_r, lift. fold path.
  destruct (FS.files fs !! path) as [[f |] |]; [| done ..].
  intros ->. unfold json_load. by destruct (FS.text f); intros [= ->].
Qed.

Lemma read_fail {A} (k : pyval → io A) fs :
  can_read self fs = false ∨ stored self fs = None →
  ∃ e, (f ← open_r path; vacancies ← lift (json_load f); k vacancies) fs
       = (Raise e, fs)
       ∧ StorageUnavailableError e = true.
Proof.
  unfold can_read, stored, mbind at 1 2, io_bind, open_r, lift. fold path.
  destruct (FS.files fs !! path) as [[f |] |]; [| intros _; by eexists ..].
  destruct (FS.readable f); [| by eexists].
  unfold json_load. destruct (FS.text f); intros [? | ?]; try done;
    by eexists.
Qed.

End StorageFacts.

Section Comprehensions.

Implicit Types (vs : list Vacancy.t) (rs : list pyval) (key : string)
  (value : pyval) (f : field).

Lemma getitem_field f v :
  getitem (Vacancy.__dict__ v) (field_key f) = Ok (field_value f v).
Proof. by destruct f. Qed.

Lemma has_key_field f v : has_key (field_key f) (Vacancy.__dict__ v) = true.
Proof. unfold has_key. by rewrite getitem_field. Qed.

Lemma matches_field f value v :
  matches (field_key f) value (Vacancy.__dict__ v)
  = py_eq (field_value f v) value.
Proof. unfold matches. by rewrite getitem_field. Qed.

Lemma from_kwargs_dict v :
  Vacancy.from_kwargs (Vacancy.__dict__ v) = Ok (reloaded v).
Proof. reflexivity. Qed.

(** Whether a stored vacancy record has a key does not depend on the
    vacancy: the keys are the four field names. *)
Lemma has_key_dict key v v' :
  has_key key (Vacancy.__dict__ v) = has_key key (Vacancy.__dict__ v').
Proof.
  unfold has_key, getitem, Vacancy.__dict__, lookup_key.
  by repeat destruct (String.eqb key _).
Qed.

Lemma getitem_no_key key r :
  has_key key r = false → (∃ d, r = PDict d) → getitem r key = Raise (KeyError key).
Proof.
  intros H [d ->]. unfold has_key in H. cbn in *.
  by destruct (lookup_key key d).
Qed.

(** On stored vacancy records and a field name, the comprehension of
    [get_vacancies] is a filter: it rebuilds, in order, the vacancies whose
    field equals [value]. *)
Lemma select_records f value vs :
  JsonVacancyStorage.select (field_key f) value (map Vacancy.__dict__ vs)
  = Ok (map reloaded
          (List.filter (λ v, py_eq (field_value f v) value) vs)).
Proof.
  induction vs as [| v vs IH]; [done |].
  cbn [map JsonVacancyStorage.select List.filter].
  rewrite getitem_field. cbn [mbind result_bind].
  destruct (py_eq (field_value f v) value); [| done].
  rewrite from_kwargs_dict. cbn [mbind result_bind]. by rewrite IH.
Qed.

(** Whatever the key, what the comprehension returns from stored vacancy
    records was rebuilt from one of them. *)
Lemma select_from_records key value vs res :
  JsonVacancyStorage.select key value (map Vacancy.__dict__ vs) = Ok res →
  ∀ x, x ∈ res → ∃ b, b ∈ vs ∧ x = reloaded b.
Proof.
  revert res. induction vs as [| v vs IH]; intros res.
  - intros [= <-] x Hx. by apply elem_of_nil in Hx.
  - cbn [map JsonVacancyStorage.select].
    destruct (getitem (Vacancy.__dict__ v) key) as [y | e]; [| done].
    cbn [mbind result_bind].
    destruct (py_eq y value).
    + rewrite from_kwargs_dict. cbn [mbind result_bind].
      destruct (JsonVacancyStorage.select key value (map Vacancy.__dict__ vs))
        as [os | e]; [| done].
      intros [= <-] x [-> | Hx]%elem_of_cons.
      * exists v. split; [left | done].
      * destruct (IH os eq_refl x Hx) as (b & Hb & ->).
        exists b. split; [by right | done].
    + intros H x Hx. destruct (IH res H x Hx) as (b & Hb & ->).
      exists b. split; [by right | done].
Qed.

(** On records that all have the key, the comprehension of
    [delete_vacancies] is a filter. *)
Lemma reject_filter key value rs :
  Forall (λ r, has_key key r = true) rs →
  JsonVacancyStorage.reject key value rs
  = Ok (List.filter (λ r, negb (matches key value r)) rs).
Proof.
  induction 1 as [| r rs Hr _ IH]; [done |].
  cbn [JsonVacancyStorage.reject List.filter].
  unfold has_key in Hr. unfold matches.
  destruct (getitem r key) as [x | e]; [| done].
  cbn [mbind result_bind]. unfold py_ne.
  destruct (py_eq x value); cbn [negb]; [done |]. by rewrite IH.
Qed.

(** Records that have the key and none of which matches select nothing. *)
Lemma select_none key value rs :
  Forall (λ r, has_key key r = true ∧ matches key value r = false) rs →
  JsonVacancyStorage.select key value rs = Ok [].
Proof.
  induction 1 as [| r rs [Hk Hm] _ IH]; [done |].
  cbn [JsonVacancyStorage.select].
  unfold has_key in Hk. unfold matches in Hm.
  destruct (getitem r key) as [x | e]; [| done].
  cbn [mbind result_bind]. by rewrite Hm.
Qed.

Lemma filter_rejected key value rs :
  Forall (λ r, has_key key r = true) rs →
  Forall (λ r, has_key key r = true ∧ matches key value r = false)
    (List.filter (λ r, negb (matches key value r)) rs).
Proof.
  induction 1 as [| r rs Hr _ IH]; [done |].
  cbn [List.filter]. destruct (matches key value r) eqn:Hm; cbn [negb]; [done |].
  by constructor.
Qed.

(** On stored vacancy records and a field name, the records that
    [delete_vacancies] keeps are those of the vacancies whose field does not
    equal [value]. *)
Lemma rejected_records f value vs :
  List.filter (λ r, negb (matches (field_key f) value r))
    (map Vacancy.__dict__ vs)
  = map Vacancy.__dict__
      (List.filter (λ v, negb (py_eq (field_value f v) value)) vs).
Proof.
  induction vs as [| v vs IH]; [done |].
  cbn [map List.filter]. rewrite matches_field.
  destruct (py_eq (field_value f v) value); cbn [negb map]; by rewrite IH.
Qed.

Lemma records_have_field f vs :
  Forall (λ r, has_key (field_key f) r = true) (map Vacancy.__dict__ vs).
Proof.
  induction vs as [| v vs IH]; constructor; [apply has_key_field | done].
Qed.

End Comprehensions.

Section StorageOperations.

Variable self : JsonVacancyStorage.t.

Implicit Types (fs : FS.t) (vs : list Vacancy.t) (rs : list pyval)
  (key : string) (value : pyval) (f : field).

Lemma add_vacancies_ok vs fs :
  can_write self fs = true →
  JsonVacancyStorage.add_vacancies self vs fs
  = (Ok tt, rewritten self (records vs) fs).
Proof. intros Hw. by apply write_ok. Qed.

Lemma add_vacancies_fail vs fs :
  can_write self fs = false →
  ∃ e, JsonVacancyStorage.add_vacancies self vs fs = (Raise e, fs)
       ∧ StorageUnavailableError e = true.
Proof. intros Hw. by apply write_fail. Qed.

Lemma get_vacancies_read key value doc fs :
  can_read self fs = true → stored self fs = Some doc →
  JsonVacancyStorage.get_vacancies self key value fs
  = (vs ← iter doc; JsonVacancyStorage.select key value vs, fs).
Proof.
  intros Hr Hs. unfold JsonVacancyStorage.get_vacancies.
  by rewrite (read_ok self _ doc fs Hr Hs).
Qed.

Lemma get_vacancies_field f value vs fs :
  can_read self fs = true → stored self fs = Some (records vs) →
  JsonVacancyStorage.get_vacancies self (field_key f) value fs
  = (Ok (map reloaded (List.filter (λ v, py_eq (field_value f v) value) vs)),
     fs).
Proof.
  intros Hr Hs. rewrite (get_vacancies_read _ _ _ _ Hr Hs).
  cbn [records iter mbind result_bind]. by rewrite select_records.
Qed.

Lemma delete_vacancies_read key value doc fs :
  can_read self fs = true → stored self fs = Some doc →
  JsonVacancyStorage.delete_vacancies self key value fs
  = match vs ← iter doc; JsonVacancyStorage.reject key value vs with
    | Ok kept =>
        (_ ← open_w (JsonVacancyStorage.file_name self);
         json_dump (PList kept) (JsonVacancyStorage.file_name self)) fs
    | Raise e => (Raise e, fs)
    end.
Proof.
  intros Hr Hs. unfold JsonVacancyStorage.delete_vacancies.
  rewrite (read_ok self _ doc fs Hr Hs).
  unfold mbind at 1, io_bind, lift.
  by destruct (vs ← iter doc; JsonVacancyStorage.reject key value vs).
Qed.

Lemma map_reloaded vs : Forall constructed vs → map reloaded vs = vs.
Proof.
  induction 1 as [| v vs Hv _ IH]; [done |].
  cbn. by rewrite (constructed_reloaded v Hv), IH.
Qed.

Lemma filter_constructed (p : Vacancy.t → bool) vs :
  Forall constructed vs → Forall constructed (List.filter p vs).
Proof.
  induction 1 as [| v vs Hv _ IH]; [done |].
  cbn. destruct (p v); [by constructor | done].
Qed.

End StorageOperations.

(** C1. On a backing file that can be written, [add_vacancies] with [A] and
    then with [B] both return, and leave the file holding exactly the
    records of [B]: the file system is the one a single call with [B] would
    have left, so nothing of [A] remains, and whatever a later
    [get_vacancies] returns was rebuilt from a record of [B] (and is that
    vacancy of [B] itself when the constructor made it). *)
Theorem add_vacancies_replaces
    (self : JsonVacancyStorage.t) (A B : list Vacancy.t) (fs : FS.t) :
  can_write self fs = true →
  ∃ fs1 fs2,
    JsonVacancyStorage.add_vacancies self A fs = (Ok tt, fs1)
    ∧ JsonVacancyStorage.add_vacancies self B fs1 = (Ok tt, fs2)
    ∧ stored self fs2 = Some (records B)
    ∧ fs2 = snd (JsonVacancyStorage.add_vacancies self B fs)
    ∧ ∀ key value res fs3,
        JsonVacancyStorage.get_vacancies self key value fs2 = (Ok res, fs3) →
        fs3 = fs2
        ∧ ∀ x, x ∈ res →
            ∃ b, b ∈ B ∧ x = reloaded b ∧ (constructed b → x = b).
Proof.
  intros Hw.
  exists (rewritten self (records A) fs), (rewritten self (records B) fs).
  split; [by apply add_vacancies_ok |].
  split.
  { rewrite add_vacancies_ok by by apply can_write_rewritten.
    by rewrite rewritten_twice. }
  split; [apply stored_rewritten |].
  split; [by rewrite add_vacancies_ok |].
  intros key value res fs3 Hget.
  set (fs2 := rewritten self (records B) fs) in *.
  destruct (can_read self fs2) eqn:Hr.
  - rewrite (get_vacancies_read self key value (records B) fs2 Hr
               (stored_rewritten self _ fs)) in Hget.
    cbn [records iter mbind result_bind] in Hget.
    injection Hget as Hsel <-. split; [done |].
    intros x Hx.
    destruct (select_from_records _ _ _ _ Hsel x Hx) as (b & Hb & ->).
    exists b. split; [done | split; [done |]].
    intros Hc. by apply constructed_reloaded.
  - destruct (read_fail self
                (λ vacancies,
                   lift (vs ← iter vacancies;
                         JsonVacancyStorage.select key value vs))
                fs2 (or_introl Hr)) as (e & He & _).
    unfold JsonVacancyStorage.get_vacancies in Hget.
    cbn zeta in He. rewrite He in Hget. discriminate.
Qed.

Lemma add_vacancies_replaces_witness :
  let self := {| JsonVacancyStorage.file_name := "vacancies.json" |} in
  let a := Vacancy.__init__ (PStr "Eng") (PStr "u1") (PInt 1000) (PStr "python") in
  let b := Vacancy.__init__ (PStr "Ops") (PStr "u2") PNone (PStr "java") in
  let fs := {| FS.files := ∅; FS.creatable := FS.Allowed |} in
  ∃ fs1 fs2,
    JsonVacancyStorage.add_vacancies self [a] fs = (Ok tt, fs1)
    ∧ JsonVacancyStorage.add_vacancies self [b] fs1 = (Ok tt, fs2)
    ∧ stored self fs2 = Some (records [b]).
Proof.
  intros self a b fs.
  destruct (add_vacancies_replaces self [a] [b] fs eq_refl)
    as (fs1 & fs2 & H1 & H2 & H3 & _).
  exists fs1, fs2. split; [exact H1 | split; [exact H2 | exact H3]].
Defined.

Lemma filter_none {A} (p : A → bool) (l : list A) :
  Forall (λ x, p x = false) l → List.filter p l = [].
Proof.
  induction 1 as [| x l Hx _ IH]; [done |]. cbn. by rewrite Hx.
Qed.

Lemma elem_of_filter_bool {A} (p : A → bool) (l : list A) (x : A) :
  x ∈ List.filter p l ↔ x ∈ l ∧ p x = true.
Proof. rewrite !list_elem_of_In. apply List.filter_In. Qed.

(** C2, as stated, fails: a query by a value that two stored records share
    returns both of them, not the one record it was taken from. *)
Lemma get_vacancies_shared_value :
  let self := {| JsonVacancyStorage.file_name := "vacancies.json" |} in
  let a := Vacancy.__init__ (PStr "Eng") (PStr "u1") (PInt 1000) (PStr "python") in
  let b := Vacancy.__init__ (PStr "Eng") (PStr "u2") (PInt 2000) (PStr "java") in
  let fs := snd (JsonVacancyStorage.add_vacancies self [a; b]
                   {| FS.files := ∅; FS.creatable := FS.Allowed |}) in
  let out := fst (JsonVacancyStorage.get_vacancies self "title"
                    (Vacancy.title a) fs) in
  out = Ok [a; b] ∧ out ≠ Ok [a].
Proof. split; [reflexivity | discriminate]. Qed.

(** C2, amended.  After [add_vacancies] stored a collection of constructed
    vacancies in a file that can be read back, [get_vacancies] by a field
    name and the value a stored record [r] has for it returns, in stored
    order and with all four fields as they were stored, exactly the stored
    vacancies whose field equals that value.  [r] is among them when its
    value equals itself (every value with no NaN in it does, [py_eq_refl]),
    and it is the whole answer when no other stored record has an equal
    value. *)
Theorem get_vacancies_roundtrip
    (self : JsonVacancyStorage.t) (vs : list Vacancy.t) (fs : FS.t)
    (f : field) (r : Vacancy.t) :
  Forall constructed vs →
  r ∈ vs →
  can_write self fs = true →
  can_read self (snd (JsonVacancyStorage.add_vacancies self vs fs)) = true →
  ∃ fs',
    JsonVacancyStorage.add_vacancies self vs fs = (Ok tt, fs')
    ∧ let value := field_value f r in
      let found := List.filter (λ v, py_eq (field_value f v) value) vs in
      JsonVacancyStorage.get_vacancies self (field_key f) value fs'
      = (Ok found, fs')
      ∧ (∀ x, x ∈ found ↔ x ∈ vs ∧ py_eq (field_value f x) value = true)
      ∧ (py_eq value value = true → r ∈ found)
      ∧ (py_eq value value = true →
         ∀ pre post : list Vacancy.t,
           vs = (pre ++ r :: post)%list →
           Forall (λ v, py_eq (field_value f v) value = false) pre →
           Forall (λ v, py_eq (field_value f v) value = false) post →
           found = [r]).
Proof.
  intros Hc Hr Hw Hread.
  rewrite add_vacancies_ok in Hread by done. cbn [snd] in Hread.
  exists (rewritten self (records vs) fs).
  split; [by apply add_vacancies_ok |].
  intros value found. split; [| split; [| split]].
  - rewrite (get_vacancies_field self f value vs _ Hread
               (stored_rewritten self _ fs)).
    fold found. by rewrite (map_reloaded found (filter_constructed _ _ Hc)).
  - intros x.
    apply (elem_of_filter_bool (λ v, py_eq (field_value f v) value) vs x).
  - intros Hrefl.
    by apply (elem_of_filter_bool (λ v, py_eq (field_value f v) value) vs r).
  - intros Hrefl pre post -> Hpre Hpost. subst found.
    rewrite List.filter_app. cbn [List.filter]. fold value. rewrite Hrefl.
    by rewrite (filter_none _ pre Hpre), (filter_none _ post Hpost).
Qed.

Lemma get_vacancies_roundtrip_witness :
  let self := {| JsonVacancyStorage.file_name := "vacancies.json" |} in
  let a := Vacancy.__init__ (PStr "Eng") (PStr "u1") (PInt 1000) (PStr "python") in
  let b := Vacancy.__init__ (PStr "Ops") (PStr "u2") PNone (PStr "java") in
  let fs := {| FS.files := ∅; FS.creatable := FS.Allowed |} in
  ∃ fs',
    JsonVacancyStorage.add_vacancies self [a; b] fs = (Ok tt, fs')
    ∧ JsonVacancyStorage.get_vacancies self "salary" (PInt 0) fs'
      = (Ok [b], fs').
Proof.
  intros self a b fs.
  assert (Hc : Forall constructed [a; b]).
  { repeat constructor; by eexists _, _, _, _. }
  assert (Hb : b ∈ [a; b]) by (right; left).
  destruct (get_vacancies_roundtrip self [a; b] fs Salary b Hc Hb
              eq_refl eq_refl) as (fs' & Hadd & Hget & _).
  exists fs'. split; [exact Hadd | exact Hget].
Defined.

Lemma can_read_kept (self : JsonVacancyStorage.t) (doc : pyval) (fs : FS.t) :
  can_read self fs = true → can_read self (rewritten self doc fs) = true.
Proof.
  intros Hr. rewrite can_read_rewritten. unfold can_read in Hr.
  by destruct (FS.files fs !! JsonVacancyStorage.file_name self) as [[f |] |].
Qed.

(** C3. On a backing file that can be read and written and holds records
    that all have the field [key] (as the records of stored vacancies have
    each field name, [records_have_field]), [delete_vacancies] returns and
    leaves the file holding the records whose [key] field does not equal
    [value], each as it was and in the original order: exactly the matching
    records are gone.  A [get_vacancies] for the same key and value then
    returns the empty sequence.  For stored vacancies and a field name, what
    remains is the records of the vacancies whose field differs from
    [value].  No other file changes. *)
Theorem delete_vacancies_removes_matching
    (self : JsonVacancyStorage.t) (fs : FS.t) (rs : list pyval)
    (key : string) (value : pyval) :
  can_read self fs = true →
  can_write self fs = true →
  stored self fs = Some (PList rs) →
  Forall (λ r, has_key key r = true) rs →
  ∃ fs',
    JsonVacancyStorage.delete_vacancies self key value fs = (Ok tt, fs')
    ∧ stored self fs'
      = Some (PList (List.filter (λ r, negb (matches key value r)) rs))
    ∧ JsonVacancyStorage.get_vacancies self key value fs' = (Ok [], fs')
    ∧ (∀ f vs,
         key = field_key f → rs = map Vacancy.__dict__ vs →
         stored self fs'
         = Some (records
                   (List.filter (λ v, negb (py_eq (field_value f v) value)) vs)))
    ∧ ∀ p, p ≠ JsonVacancyStorage.file_name self →
           FS.files fs' !! p = FS.files fs !! p.
Proof.
  intros Hr Hw Hs Hk.
  set (kept := List.filter (λ r, negb (matches key value r)) rs).
  exists (rewritten self (PList kept) fs).
  split; [| split; [| split; [| split]]].
  - rewrite (delete_vacancies_read self key value _ fs Hr Hs).
    cbn [iter mbind result_bind]. rewrite (reject_filter key value rs Hk).
    by apply write_ok.
  - apply stored_rewritten.
  - rewrite (get_vacancies_read self key value (PList kept) _
               (can_read_kept self _ fs Hr) (stored_rewritten self _ fs)).
    cbn [iter mbind result_bind].
    by rewrite (select_none key value kept (filter_rejected key value rs Hk)).
  - intros f vs -> ->. rewrite stored_rewritten. subst kept.
    by rewrite rejected_records.
  - intros p Hp. by apply rewritten_other.
Qed.

Lemma delete_vacancies_removes_matching_witness :
  let self := {| JsonVacancyStorage.file_name := "vacancies.json" |} in
  let a := Vacancy.__init__ (PStr "Eng") (PStr "u1") (PInt 1000) (PStr "python") in
  let b := Vacancy.__init__ (PStr "Ops") (PStr "u2") PNone (PStr "java") in
  let c := Vacancy.__init__ (PStr "Eng") (PStr "u3") (PInt 3000) (PStr "rust") in
  let fs := snd (JsonVacancyStorage.add_vacancies self [a; b; c]
                   {| FS.files := ∅; FS.creatable := FS.Allowed |}) in
  ∃ fs',
    JsonVacancyStorage.delete_vacancies self "title" (PStr "Eng") fs
    = (Ok tt, fs')
    ∧ stored self fs' = Some (records [b])
    ∧ JsonVacancyStorage.get_vacancies self "title" (PStr "Eng") fs'
      = (Ok [], fs').
Proof.
  intros self a b c fs.
  assert (Hk : Forall (λ r, has_key "title" r = true)
                 (map Vacancy.__dict__ [a; b; c])).
  { repeat constructor. }
  destruct (delete_vacancies_removes_matching self fs
              (map Vacancy.__dict__ [a; b; c]) "title" (PStr "Eng")
              eq_refl eq_refl eq_refl Hk) as (fs' & Hdel & Hst & Hget & _).
  exists fs'. split; [exact Hdel | split; [exact Hst | exact Hget]].
Defined.

(** C9, as stated, fails for [add_vacancies]: it never reads, so a backing
    file that is missing, or that may not be read and holds no JSON
    document, does not make it fail; it writes the file anew. *)
Lemma add_vacancies_on_unreadable_store :
  let self := {| JsonVacancyStorage.file_name := "vacancies.json" |} in
  let a := Vacancy.__init__ (PStr "Eng") (PStr "u1") (PInt 1000) (PStr "python") in
  let missing := {| FS.files := ∅; FS.creatable := FS.Allowed |} in
  let garbled :=
    {| FS.files := {[ "vacancies.json" :=
                        FS.Regular {| FS.text := FS.NotJson; FS.readable := false;
                                      FS.writable := true |} ]};
       FS.creatable := FS.Forbidden |} in
  (can_read self missing = false
   ∧ fst (JsonVacancyStorage.add_vacancies self [a] missing) = Ok tt)
  ∧ (can_read self garbled = false ∧ stored self garbled = None
     ∧ fst (JsonVacancyStorage.add_vacancies self [a] garbled) = Ok tt).
Proof. repeat split; reflexivity. Qed.

(** C9, amended.  [StorageUnavailableError] is the error of the failed
    [open] or [json.load], which the code lets through as it is.
    [add_vacancies] fails with it when the backing medium cannot be opened
    for writing; it never reads, so a file that is missing, may not be read
    or holds no JSON document does not make it fail: it returns, and the
    file is written anew.  [get_vacancies] and [delete_vacancies] fail with
    it when the medium cannot be read or what it holds cannot be decoded
    and parsed, and [delete_vacancies] fails also when the medium cannot be
    written, with that error once its records have all passed the filter.
    A failed operation leaves the file system as it was.  [get_vacancies]
    on a readable store whose records all have the key and none of which
    matches returns the empty sequence. *)
Theorem storage_failures (self : JsonVacancyStorage.t) (fs : FS.t) :
  (∀ vs,
     (can_write self fs = false →
      ∃ e, JsonVacancyStorage.add_vacancies self vs fs = (Raise e, fs)
           ∧ StorageUnavailableError e = true)
     ∧ (can_write self fs = true →
        fst (JsonVacancyStorage.add_vacancies self vs fs) = Ok tt))
  ∧ (∀ key value,
       can_read self fs = false ∨ stored self fs = None →
       (∃ e, JsonVacancyStorage.get_vacancies self key value fs = (Raise e, fs)
             ∧ StorageUnavailableError e = true)
       ∧ (∃ e, JsonVacancyStorage.delete_vacancies self key value fs
               = (Raise e, fs)
               ∧ StorageUnavailableError e = true))
  ∧ (∀ key value,
       can_write self fs = false →
       (∃ e, JsonVacancyStorage.delete_vacancies self key value fs
             = (Raise e, fs))
       ∧ (∀ rs,
            can_read self fs = true → stored self fs = Some (PList rs) →
            Forall (λ r, has_key key r = true) rs →
            ∃ e, JsonVacancyStorage.delete_vacancies self key value fs
                 = (Raise e, fs)
                 ∧ StorageUnavailableError e = true))
  ∧ (∀ key value rs,
       can_read self fs = true → stored self fs = Some (PList rs) →
       Forall (λ r, has_key key r = true ∧ matches key value r = false) rs →
       JsonVacancyStorage.get_vacancies self key value fs = (Ok [], fs)).
Proof.
  split; [| split; [| split]].
  - intros vs. split; intros Hw.
    + by apply add_vacancies_fail.
    + by rewrite add_vacancies_ok.
  - intros key value Hbad. split.
    + apply (read_fail self _ fs Hbad).
    + unfold JsonVacancyStorage.delete_vacancies.
      apply (read_fail self _ fs Hbad).
  - intros key value Hw.
    assert (Hperm : ∀ rs,
              can_read self fs = true → stored self fs = Some (PList rs) →
              Forall (λ r, has_key key r = true) rs →
              ∃ e, JsonVacancyStorage.delete_vacancies self key value fs
                   = (Raise e, fs)
                   ∧ StorageUnavailableError e = true).
    { intros rs Hr Hs Hk.
      rewrite (delete_vacancies_read self key value _ fs Hr Hs).
      cbn [iter mbind result_bind]. rewrite (reject_filter key value rs Hk).
      by apply write_fail. }
    split; [| exact Hperm].
    destruct (can_read self fs) eqn:Hr.
    2: { destruct (read_fail self
                     (λ vacancies,
                        kept ← lift (vs ← iter vacancies;
                                     JsonVacancyStorage.reject key value vs);
                        _ ← open_w (JsonVacancyStorage.file_name self);
                        json_dump (PList kept) (JsonVacancyStorage.file_name self))
                     fs (or_introl Hr)) as (e & He & _).
         by exists e. }
    destruct (stored self fs) as [doc |] eqn:Hs.
    2: { destruct (read_fail self
                     (λ vacancies,
                        kept ← lift (vs ← iter vacancies;
                                     JsonVacancyStorage.reject key value vs);
                        _ ← open_w (JsonVacancyStorage.file_name self);
                        json_dump (PList kept) (JsonVacancyStorage.file_name self))
                     fs (or_intror Hs)) as (e & He & _).
         by exists e. }
    rewrite (delete_vacancies_read self key value doc fs Hr Hs).
    destruct (vs ← iter doc; JsonVacancyStorage.reject key value vs)
      as [kept | e].
    + destruct (write_fail self (PList kept) fs Hw) as (e & He & _).
      by exists e.
    + by exists e.
  - intros key value rs Hr Hs Hnone.
    rewrite (get_vacancies_read self key value _ fs Hr Hs).
    cbn [iter mbind result_bind]. by rewrite (select_none key value rs Hnone).
Qed.

(** On a backing file in a directory that does not exist, [add_vacancies]
    fails with [FileNotFoundError]; on one that is a directory, with
    [IsADirectoryError]; on a file whose bytes are no text,
    [get_vacancies] fails with [UnicodeDecodeError]. *)
Example storage_failure_classes :
  let self := {| JsonVacancyStorage.file_name := "nodir/vacancies.json" |} in
  let a := Vacancy.__init__ (PStr "Eng") (PStr "u1") (PInt 1000) (PStr "python") in
  let nowhere := {| FS.files := ∅; FS.creatable := FS.NoDirectory |} in
  let directory :=
    {| FS.files := {[ "nodir/vacancies.json" := FS.Directory ]};
       FS.creatable := FS.Allowed |} in
  let binary :=
    {| FS.files := {[ "nodir/vacancies.json" :=
                        FS.Regular {| FS.text := FS.NotText; FS.readable := true;
                                      FS.writable := true |} ]};
       FS.creatable := FS.Allowed |} in
  JsonVacancyStorage.add_vacancies self [a] nowhere
  = (Raise (FileNotFoundError "nodir/vacancies.json"), nowhere)
  ∧ JsonVacancyStorage.add_vacancies self [a] directory
    = (Raise (IsADirectoryError "nodir/vacancies.json"), directory)
  ∧ JsonVacancyStorage.get_vacancies self "title" (PStr "Eng") directory
    = (Raise (IsADirectoryError "nodir/vacancies.json"), directory)
  ∧ JsonVacancyStorage.get_vacancies self "title" (PStr "Eng") binary
    = (Raise UnicodeDecodeError, binary).
Proof. repeat split; reflexivity. Qed.

(** C10. On a readable backing file that holds the records of a non-empty
    collection of vacancies, a key that some stored record lacks (which is
    any key other than the four field names, and then every record lacks
    it) makes [get_vacancies] and [delete_vacancies] raise [KeyError] for
    that key, whatever the value; neither returns an empty sequence, and
    the file is left as it was. *)
Theorem missing_key_raises
    (self : JsonVacancyStorage.t) (fs : FS.t) (vs : list Vacancy.t)
    (key : string) (value : pyval) :
  can_read self fs = true →
  stored self fs = Some (records vs) →
  Exists (λ v, has_key key (Vacancy.__dict__ v) = false) vs →
  JsonVacancyStorage.get_vacancies self key value fs
  = (Raise (KeyError key), fs)
  ∧ JsonVacancyStorage.delete_vacancies self key value fs
    = (Raise (KeyError key), fs).
Proof.
  intros Hr Hs Hex.
  assert (Hfirst : ∃ v0 rest, vs = v0 :: rest
                   ∧ getitem (Vacancy.__dict__ v0) key = Raise (KeyError key)).
  { apply Exists_exists in Hex as (v & Hv & Hno).
    destruct vs as [| v0 rest]; [by apply elem_of_nil in Hv |].
    exists v0, rest. split; [done |].
    apply getitem_no_key; [| by eexists].
    by rewrite (has_key_dict key v0 v). }
  destruct Hfirst as (v0 & rest & -> & Hget).
  split.
  - rewrite (get_vacancies_read self key value _ fs Hr Hs).
    cbn [records iter map mbind result_bind JsonVacancyStorage.select].
    by rewrite Hget.
  - rewrite (delete_vacancies_read self key value _ fs Hr Hs).
    cbn [records iter map mbind result_bind JsonVacancyStorage.reject].
    by rewrite Hget.
Qed.

Lemma missing_key_raises_witness :
  let self := {| JsonVacancyStorage.file_name := "vacancies.json" |} in
  let a := Vacancy.__init__ (PStr "Eng") (PStr "u1") (PInt 1000) (PStr "python") in
  let fs := snd (JsonVacancyStorage.add_vacancies self [a]
                   {| FS.files := ∅; FS.creatable := FS.Allowed |}) in
  JsonVacancyStorage.get_vacancies self "company" (PStr "Eng") fs
  = (Raise (KeyError "company"), fs)
  ∧ JsonVacancyStorage.delete_vacancies self "company" (PStr "Eng") fs
    = (Raise (KeyError "company"), fs).
Proof.
  intros self a fs.
  assert (Hex : Exists (λ v, has_key "company" (Vacancy.__dict__ v) = false) [a]).
  { left. reflexivity. }
  exact (missing_key_raises self fs [a] "company" (PStr "Eng")
           eq_refl eq_refl Hex).
Defined.

(** ** The storage on concrete collections *)

(** A record whose salary is NaN is not found by its own salary. *)
Example get_vacancies_nan_salary :
  let self := {| JsonVacancyStorage.file_name := "vacancies.json" |} in
  let a := Vacancy.__init__ (PStr "Eng") (PStr "u1") (PFloat S754_nan) (PStr "python") in
  let fs := snd (JsonVacancyStorage.add_vacancies self [a]
                   {| FS.files := ∅; FS.creatable := FS.Allowed |}) in
  fst (JsonVacancyStorage.get_vacancies self "salary" (Vacancy.salary a) fs)
  = Ok [].
Proof. reflexivity. Qed.

(** The query of the top-N menu entry, salary equal to the string "max",
    matches no record with a numeric salary. *)
Example get_vacancies_salary_max :
  let self := {| JsonVacancyStorage.file_name := "vacancies.json" |} in
  let a := Vacancy.__init__ (PStr "Eng") (PStr "u1") (PInt 1000) (PStr "python") in
  let b := Vacancy.__init__ (PStr "Ops") (PStr "u2") PNone (PStr "java") in
  let fs := snd (JsonVacancyStorage.add_vacancies self [a; b]
                   {| FS.files := ∅; FS.creatable := FS.Allowed |}) in
  fst (JsonVacancyStorage.get_vacancies self "salary" (PStr "max") fs) = Ok [].
Proof. reflexivity. Qed.

(** A stored document that is not a list of records: a number does not
    iterate, and a list of numbers has no field to look up. *)
Example get_vacancies_not_records :
  let self := {| JsonVacancyStorage.file_name := "vacancies.json" |} in
  let holding doc :=
    {| FS.files := {[ "vacancies.json" :=
                        FS.Regular {| FS.text := FS.Json doc; FS.readable := true;
                                      FS.writable := true |} ]};
       FS.creatable := FS.Allowed |} in
  fst (JsonVacancyStorage.get_vacancies self "title" (PStr "Eng")
         (holding (PInt 42))) = Raise TypeError
  ∧ fst (JsonVacancyStorage.get_vacancies self "title" (PStr "Eng")
           (holding (PList [PInt 1; PInt 2]))) = Raise TypeError.
Proof. split; reflexivity. Qed.

(** * Further properties of the code *)

(** ** Construction, validation and ordering of vacancies *)

Section VacancyProperties.

Implicit Types (t u s d : pyval) (a b : Vacancy.t).

Lemma is_number_or_zero s :
  is_number (py_or s (PInt 0)) = is_number s || negb (truthy s).
Proof.
  unfold py_or. destruct (truthy s) eqn:E; cbn.
  - by rewrite orb_false_r.
  - by rewrite orb_true_r.
Qed.

Lemma test_op_opp (c : option comparison) :
  test_op OpLt c = test_op OpGt (CompOpp <$> c).
Proof. by destruct c as [[] |]. Qed.

Lemma SFcompare_antisym (x y : spec_float) :
  SFcompare x y = CompOpp <$> SFcompare y x.
Proof.
  destruct x as [s1 | s1 | | s1 m1 e1], y as [s2 | s2 | | s2 m2 e2];
    cbn; try done; try by destruct s1; try by destruct s2.
  f_equal. rewrite (Z.compare_antisym e1 e2).
  destruct s1, s2; cbn; try done; destruct (e1 ?= e2); cbn; try done.
  - by rewrite CompOpp_involutive, Pos.compare_cont_antisym.
  - by rewrite Pos.compare_cont_antisym.
Qed.

Lemma num_compare_antisym (m n : num) :
  num_compare m n = CompOpp <$> num_compare n m.
Proof.
  destruct m as [m | x], n as [n | y]; cbn.
  - by rewrite (Z.compare_antisym n m).
  - destruct (Z_SF_compare m y) as [c |]; cbn; [| done].
    by rewrite CompOpp_involutive.
  - done.
  - apply SFcompare_antisym.
Qed.

Lemma num_compare_refl_not_lt (m : num) : test_op OpLt (num_compare m m) = false.
Proof.
  destruct m as [m | x]; cbn.
  - by rewrite Z.compare_refl.
  - destruct x as [sg | sg | | sg m e]; [| | done |];
      by rewrite SFcompare_refl.
Qed.

Lemma py_lt_gt_scalar (x y : pyval) :
  is_scalar x = true → is_scalar y = true → py_lt x y = py_gt y x.
Proof.
  unfold py_lt, py_gt.
  destruct x, y; try discriminate; intros _ _; cbn; try done;
    first
      [ by destruct (Z_SF_compare _ _) as [[] |]
      | by rewrite SFcompare_antisym; destruct (SFcompare _ _) as [[] |]
      | by rewrite String.compare_antisym; destruct (_ ?= _)%string
      | match goal with
        | |- context [?a ?= ?b] =>
            rewrite (Z.compare_antisym a b); by destruct (a ?= b)
        end ].
Qed.

Lemma py_lt_irrefl_scalar (x : pyval) :
  is_scalar x = true → py_lt x x ≠ Ok true.
Proof.
  unfold py_lt.
  destruct x; try discriminate; intros _; cbn [py_richcmp numeric];
    try done; try (rewrite num_compare_refl_not_lt; discriminate).
  cbn. pose proof (String.compare_antisym s s) as H.
  by destruct (s ?= s)%string.
Qed.

End VacancyProperties.

Lemma py_eq_not_ordered (x y : pyval) :
  is_scalar x = true → is_scalar y = true → py_eq x y = true →
  py_lt x y ≠ Ok true ∧ py_gt x y ≠ Ok true.
Proof.
  unfold py_lt, py_gt.
  destruct x, y; try discriminate; intros _ _;
    cbn [py_eq py_richcmp numeric]; try done;
    try (destruct (num_compare _ _) as [[] |]; by cbn).
  intros ->%String.eqb_eq. cbn. pose proof (String.compare_antisym s0 s0) as H.
  by destruct (s0 ?= s0)%string.
Qed.

(** X1. A vacancy passes [validate] right after construction exactly when
    its title, url and description are strings and the salary it was given
    is a number or is falsy: the constructor turns every falsy salary
    ([None], [False], an empty string, list or dict, a zero) into the int 0,
    so [validate] never sees it, while a truthy salary that is no number
    (a non-empty string, [True]) is rejected. *)
Theorem validate_after_init (t u s d : pyval) :
  Vacancy.validate (Vacancy.__init__ t u s d) = Ok tt ↔
  (is_number s = true ∨ truthy s = false)
  ∧ is_string t = true ∧ is_string u = true ∧ is_string d = true.
Proof.
  unfold Vacancy.validate. rewrite type_in_number, !isinstance_str.
  cbn [Vacancy.__init__ Vacancy.salary Vacancy.title Vacancy.url
       Vacancy.description].
  rewrite is_number_or_zero.
  destruct (is_number s), (truthy s), (is_string t), (is_string u),
    (is_string d); cbn; split; try done;
    try (by intros ([|] & ? & ? & ?)); by repeat split; auto.
Qed.

(** X2. The constructor leaves a salary that is truthy or is the int 0,
    and constructing again from the attributes of a constructed vacancy
    gives the same vacancy: the coercion [salary or 0] changes nothing the
    second time. *)
Theorem init_is_stable (t u s d : pyval) :
  let v := Vacancy.__init__ t u s d in
  (truthy (Vacancy.salary v) = true ∨ Vacancy.salary v = PInt 0)
  ∧ Vacancy.__init__ (Vacancy.title v) (Vacancy.url v) (Vacancy.salary v)
      (Vacancy.description v) = v.
Proof.
  intros v. split.
  - apply init_salary_normal.
  - apply (constructed_reloaded v). by exists t, u, s, d.
Qed.

(** X3. For vacancies whose salaries are scalars (numbers, booleans,
    strings, [None]), [a < b] answers or raises exactly what [b > a] does,
    no vacancy is less than itself, and two vacancies that compare equal
    are neither less nor greater than one another. *)
Theorem Vacancy_order_mirror (a b : Vacancy.t) :
  is_scalar (Vacancy.salary a) = true →
  is_scalar (Vacancy.salary b) = true →
  Vacancy.__lt__ a b = Vacancy.__gt__ b a
  ∧ Vacancy.__lt__ a a ≠ Ok true
  ∧ (Vacancy.__eq__ a b = true →
     Vacancy.__lt__ a b ≠ Ok true ∧ Vacancy.__gt__ a b ≠ Ok true).
Proof.
  intros Ha Hb. unfold Vacancy.__lt__, Vacancy.__gt__, Vacancy.__eq__.
  split; [by apply py_lt_gt_scalar |].
  split; [by apply py_lt_irrefl_scalar |].
  by apply py_eq_not_ordered.
Qed.

Lemma Vacancy_order_mirror_witness :
  let a := Vacancy.__init__ (PStr "Eng") (PStr "u1") (PInt 1000) (PStr "python") in
  let b := Vacancy.__init__ (PStr "Ops") (PStr "u2") (PFloat (S754_finite false 7 8)) (PStr "java") in
  Vacancy.__lt__ a b = Vacancy.__gt__ b a.
Proof.
  intros a b.
  exact (proj1 (Vacancy_order_mirror a b eq_refl eq_refl)).
Defined.

(** ** Responses the API client cannot read *)

(** X4. On a response with status 200, [get_vacancies] raises the error of
    the first step that fails: [JSONDecodeError] when the body is no JSON
    document, [KeyError] for [items] when the document is an object without
    that field, [TypeError] when the document is not an object at all. *)
Theorem HhVacancyAPI_unreadable_success
    (r : HhVacancyAPI.response) (self : HhVacancyAPI.t)
    (search_query : string) (page : Z) :
  HhVacancyAPI.status_code r = 200 →
  let out := HhVacancyAPI.get_vacancies (λ _, r) self search_query page in
  (HhVacancyAPI.body r = None → out = Raise JSONDecodeError)
  ∧ (∀ d, HhVacancyAPI.body r = Some (PDict d) →
          lookup_key "items" d = None → out = Raise (KeyError "items"))
  ∧ (∀ doc, HhVacancyAPI.body r = Some doc →
            (∀ d, doc ≠ PDict d) → out = Raise TypeError).
Proof.
  intros Hc out. subst out. unfold HhVacancyAPI.get_vacancies. cbn zeta.
  rewrite Hc. cbn [Z.eqb Pos.eqb]. unfold HhVacancyAPI.json.
  split; [| split].
  - by intros ->.
  - intros d -> Hk. cbn. by rewrite Hk.
  - intros doc -> Hd. destruct doc; try done. by destruct (Hd d).
Qed.

Lemma HhVacancyAPI_unreadable_success_witness :
  HhVacancyAPI.get_vacancies
    (λ _, {| HhVacancyAPI.status_code := 200;
             HhVacancyAPI.body := Some (PDict [("found", PInt 0)]) |})
    {| HhVacancyAPI.api_key := "YOUR_API_KEY" |} "python" 0
  = Raise (KeyError "items").
Proof.
  exact (proj1 (proj2 (HhVacancyAPI_unreadable_success
                         {| HhVacancyAPI.status_code := 200;
                            HhVacancyAPI.body := Some (PDict [("found", PInt 0)]) |}
                         {| HhVacancyAPI.api_key := "YOUR_API_KEY" |}
                         "python" 0 eq_refl))
           [("found", PInt 0)] eq_refl eq_refl).
Defined.

(** ** What the storage operations change *)

Section StorageProperties.

Variable self : JsonVacancyStorage.t.

Implicit Types (fs : FS.t) (vs : list Vacancy.t) (rs : list pyval)
  (key : string) (value : pyval) (f : field).

(** The comprehension of [delete_vacancies] returns only when every record
    has the key, and then it is the filter. *)
Lemma reject_inv key value rs kept :
  JsonVacancyStorage.reject key value rs = Ok kept →
  Forall (λ r, has_key key r = true) rs
  ∧ kept = List.filter (λ r, negb (matches key value r)) rs.
Proof.
  revert kept. induction rs as [| r rs IH]; intros kept.
  - by intros [= <-].
  - cbn [JsonVacancyStorage.reject List.filter]. unfold has_key, matches.
    destruct (getitem r key) as [x | e] eqn:Hx; [| done].
    cbn [mbind result_bind]. unfold py_ne.
    destruct (py_eq x value); cbn [negb].
    + intros H. destruct (IH kept H) as [Hall ->].
      split; [| done]. constructor; [| done]. unfold has_key. by rewrite Hx.
    + destruct (JsonVacancyStorage.reject key value rs) as [kept' | e];
        [| done].
      intros [= <-]. destruct (IH kept' eq_refl) as [Hall ->].
      split; [| done]. constructor; [| done]. unfold has_key. by rewrite Hx.
Qed.

Lemma filter_twice {A} (p : A → bool) (l : list A) :
  List.filter p (List.filter p l) = List.filter p l.
Proof.
  induction l as [| x l IH]; [done |]. cbn.
  destruct (p x) eqn:Hp; [| done]. cbn. by rewrite Hp, IH.
Qed.

Lemma Forall_filter_bool {A} (P : A → Prop) (p : A → bool) (l : list A) :
  Forall P l → Forall P (List.filter p l).
Proof.
  induction 1 as [| x l Hx _ IH]; [done |]. cbn.
  destruct (p x); [by constructor | done].
Qed.

(** How [delete_vacancies] ends: with an exception and the file system as
    it was, or with the file of the storage rewritten to the records it
    kept. *)
Lemma delete_vacancies_cases key value fs :
  (∃ e, JsonVacancyStorage.delete_vacancies self key value fs = (Raise e, fs))
  ∨ (∃ doc rs kept,
       can_read self fs = true ∧ can_write self fs = true
       ∧ stored self fs = Some doc ∧ iter doc = Ok rs
       ∧ JsonVacancyStorage.reject key value rs = Ok kept
       ∧ JsonVacancyStorage.delete_vacancies self key value fs
         = (Ok tt, rewritten self (PList kept) fs)).
Proof.
  destruct (can_read self fs) eqn:Hr.
  2: { left. unfold JsonVacancyStorage.delete_vacancies.
       destruct (read_fail self
                   (λ vacancies,
                      kept ← lift (vs ← iter vacancies;
                                   JsonVacancyStorage.reject key value vs);
                      _ ← open_w (JsonVacancyStorage.file_name self);
                      json_dump (PList kept) (JsonVacancyStorage.file_name self))
                   fs (or_introl Hr)) as (e & He & _).
       by exists e. }
  destruct (stored self fs) as [doc |] eqn:Hs.
  2: { left. unfold JsonVacancyStorage.delete_vacancies.
       destruct (read_fail self
                   (λ vacancies,
                      kept ← lift (vs ← iter vacancies;
                                   JsonVacancyStorage.reject key value vs);
                      _ ← open_w (JsonVacancyStorage.file_name self);
                      json_dump (PList kept) (JsonVacancyStorage.file_name self))
                   fs (or_intror Hs)) as (e & He & _).
       by exists e. }
  rewrite (delete_vacancies_read self key value doc fs Hr Hs).
  destruct (iter doc) as [rs | e] eqn:Hi; cbn [mbind result_bind];
    [| left; by exists e].
  destruct (JsonVacancyStorage.reject key value rs) as [kept | e] eqn:Hrej;
    [| left; by exists e].
  destruct (can_write self fs) eqn:Hw.
  - right. exists doc, rs, kept. rewrite (write_ok self _ fs Hw).
    by repeat split.
  - left. destruct (write_fail self (PList kept) fs Hw) as (e & He & _).
    by exists e.
Qed.

End StorageProperties.

Lemma get_vacancies_same_files
    (self : JsonVacancyStorage.t) (key : string) (value : pyval) (fs : FS.t) :
  snd (JsonVacancyStorage.get_vacancies self key value fs) = fs.
Proof.
  destruct (can_read self fs) eqn:Hr.
  2: { destruct (read_fail self
                   (λ vacancies,
                      lift (vs ← iter vacancies;
                            JsonVacancyStorage.select key value vs))
                   fs (or_introl Hr)) as (e & He & _).
       unfold JsonVacancyStorage.get_vacancies. cbn zeta in He.
       by rewrite He. }
  destruct (stored self fs) as [doc |] eqn:Hs.
  - by rewrite (get_vacancies_read self key value doc fs Hr Hs).
  - destruct (read_fail self
                (λ vacancies,
                   lift (vs ← iter vacancies;
                         JsonVacancyStorage.select key value vs))
                fs (or_intror Hs)) as (e & He & _).
    unfold JsonVacancyStorage.get_vacancies. cbn zeta in He.
    by rewrite He.
Qed.

(** X5. [get_vacancies] only reads: whatever it returns or raises, it
    leaves every file as it was, so asking twice gives the same answer. *)
Theorem get_vacancies_reads_only
    (self : JsonVacancyStorage.t) (key : string) (value : pyval) (fs : FS.t) :
  snd (JsonVacancyStorage.get_vacancies self key value fs) = fs
  ∧ ∀ key' value',
      JsonVacancyStorage.get_vacancies self key' value'
        (snd (JsonVacancyStorage.get_vacancies self key value fs))
      = JsonVacancyStorage.get_vacancies self key' value' fs.
Proof.
  split; [apply get_vacancies_same_files |].
  intros key' value'. by rewrite get_vacancies_same_files.
Qed.

(** X6. [delete_vacancies] is all or nothing: when it raises, whatever the
    reason (the file cannot be read or parsed, a record lacks the key or is
    no record, the file cannot be written), every file is as it was; when
    it returns, the file of the storage keeps its permissions and no other
    file has changed. *)
Theorem delete_vacancies_all_or_nothing
    (self : JsonVacancyStorage.t) (key : string) (value : pyval) (fs : FS.t) :
  (∀ e fs',
     JsonVacancyStorage.delete_vacancies self key value fs = (Raise e, fs') →
     fs' = fs)
  ∧ (∀ fs',
       JsonVacancyStorage.delete_vacancies self key value fs = (Ok tt, fs') →
       can_read self fs' = true ∧ can_write self fs' = true
       ∧ FS.creatable fs' = FS.creatable fs
       ∧ ∀ p, p ≠ JsonVacancyStorage.file_name self →
              FS.files fs' !! p = FS.files fs !! p).
Proof.
  destruct (delete_vacancies_cases self key value fs)
    as [[e He] | (doc & rs & kept & Hr & Hw & _ & _ & _ & Hdel)].
  - rewrite He. split; [by intros e' fs' [= _ <-] | by intros fs' [=]].
  - rewrite Hdel. split; [by intros e fs' [=] |].
    intros fs' [= <-]. split; [by apply can_read_kept |].
    split; [by apply can_write_rewritten |]. split; [done |].
    intros p Hp. by apply rewritten_other.
Qed.

(** X7. [delete_vacancies] is idempotent: once a deletion has returned,
    the same deletion again returns and changes nothing. *)
Theorem delete_vacancies_idempotent
    (self : JsonVacancyStorage.t) (key : string) (value : pyval)
    (fs fs' : FS.t) :
  JsonVacancyStorage.delete_vacancies self key value fs = (Ok tt, fs') →
  JsonVacancyStorage.delete_vacancies self key value fs' = (Ok tt, fs').
Proof.
  destruct (delete_vacancies_cases self key value fs)
    as [[e He] | (doc & rs & kept & Hr & Hw & Hs & Hi & Hrej & Hdel)].
  { by rewrite He. }
  rewrite Hdel. intros [= <-].
  destruct (reject_inv key value rs kept Hrej) as [Hall Hkept].
  rewrite (delete_vacancies_read self key value (PList kept) _
             (can_read_kept self _ fs Hr) (stored_rewritten self _ fs)).
  cbn [iter mbind result_bind].
  rewrite (reject_filter key value kept).
  2: { subst kept. by apply Forall_filter_bool. }
  rewrite (write_ok self _ _ (can_write_rewritten self _ fs Hw)).
  rewrite rewritten_twice. subst kept. by rewrite filter_twice.
Qed.

Lemma delete_vacancies_idempotent_witness :
  let self := {| JsonVacancyStorage.file_name := "vacancies.json" |} in
  let a := Vacancy.__init__ (PStr "Eng") (PStr "u1") (PInt 1000) (PStr "python") in
  let b := Vacancy.__init__ (PStr "Ops") (PStr "u2") PNone (PStr "java") in
  let fs := snd (JsonVacancyStorage.add_vacancies self [a; b]
                   {| FS.files := ∅; FS.creatable := FS.Allowed |}) in
  let fs' := snd (JsonVacancyStorage.delete_vacancies self "title" (PStr "Eng") fs) in
  JsonVacancyStorage.delete_vacancies self "title" (PStr "Eng") fs' = (Ok tt, fs').
Proof.
  intros self a b fs fs'.
  exact (delete_vacancies_idempotent self "title" (PStr "Eng") fs fs' eq_refl).
Defined.

(** ** Queries and deletions on stored vacancies *)

Lemma filter_swap {A} (p q : A → bool) (l : list A) :
  List.filter p (List.filter q l) = List.filter q (List.filter p l).
Proof.
  induction l as [| x l IH]; [done |]. cbn.
  destruct (q x) eqn:Hq, (p x) eqn:Hp; cbn; rewrite ?Hq, ?Hp, IH; done.
Qed.

(** On a readable and writable store of vacancies, deleting by a field
    name returns and leaves the records of the vacancies it keeps. *)
Lemma delete_vacancies_field
    (self : JsonVacancyStorage.t) (f : field) (value : pyval)
    (vs : list Vacancy.t) (fs : FS.t) :
  can_read self fs = true → can_write self fs = true →
  stored self fs = Some (records vs) →
  JsonVacancyStorage.delete_vacancies self (field_key f) value fs
  = (Ok tt,
     rewritten self
       (records (List.filter (λ v, negb (py_eq (field_value f v) value)) vs))
       fs).
Proof.
  intros Hr Hw Hs.
  rewrite (delete_vacancies_read self _ value _ fs Hr Hs).
  cbn [records iter mbind result_bind].
  rewrite (reject_filter _ value _ (records_have_field f vs)).
  rewrite rejected_records. by apply write_ok.
Qed.

(** X8. On a readable and writable store of constructed vacancies, after
    deleting by one field and value, a query by any field and value
    returns what the same query returned before the deletion, less the
    vacancies the deletion matched, in the same order. *)
Theorem get_after_delete
    (self : JsonVacancyStorage.t) (fs : FS.t) (vs : list Vacancy.t)
    (f1 f2 : field) (v1 v2 : pyval) :
  Forall constructed vs →
  can_read self fs = true → can_write self fs = true →
  stored self fs = Some (records vs) →
  ∃ found fs',
    JsonVacancyStorage.get_vacancies self (field_key f2) v2 fs = (Ok found, fs)
    ∧ JsonVacancyStorage.delete_vacancies self (field_key f1) v1 fs = (Ok tt, fs')
    ∧ JsonVacancyStorage.get_vacancies self (field_key f2) v2 fs'
      = (Ok (List.filter (λ v, negb (py_eq (field_value f1 v) v1)) found), fs').
Proof.
  intros Hc Hr Hw Hs.
  set (kept := List.filter (λ v, negb (py_eq (field_value f1 v) v1)) vs).
  exists (List.filter (λ v, py_eq (field_value f2 v) v2) vs),
         (rewritten self (records kept) fs).
  split; [| split].
  - rewrite (get_vacancies_field self f2 v2 vs fs Hr Hs).
    by rewrite (map_reloaded _ (filter_constructed _ _ Hc)).
  - by apply delete_vacancies_field.
  - rewrite (get_vacancies_field self f2 v2 kept _
               (can_read_kept self _ fs Hr) (stored_rewritten self _ fs)).
    subst kept.
    rewrite (map_reloaded _ (filter_constructed _ _ (filter_constructed _ _ Hc))).
    by rewrite filter_swap.
Qed.

Lemma get_after_delete_witness :
  let self := {| JsonVacancyStorage.file_name := "vacancies.json" |} in
  let a := Vacancy.__init__ (PStr "Eng") (PStr "u1") (PInt 1000) (PStr "python") in
  let b := Vacancy.__init__ (PStr "Eng") (PStr "u2") PNone (PStr "java") in
  let fs := snd (JsonVacancyStorage.add_vacancies self [a; b]
                   {| FS.files := ∅; FS.creatable := FS.Allowed |}) in
  ∃ fs',
    JsonVacancyStorage.delete_vacancies self "description" (PStr "java") fs
    = (Ok tt, fs')
    ∧ JsonVacancyStorage.get_vacancies self "title" (PStr "Eng") fs'
      = (Ok [a], fs').
Proof.
  intros self a b fs.
  assert (Hc : Forall constructed [a; b]).
  { repeat constructor; by eexists _, _, _, _. }
  destruct (get_after_delete self fs [a; b] Description Title
              (PStr "java") (PStr "Eng") Hc eq_refl eq_refl eq_refl)
    as (found & fs' & Hget & Hdel & Hafter).
  exists fs'. split; [exact Hdel |].
  injection Hget as <-. exact Hafter.
Defined.

(** X9. On a readable store of vacancies whose salaries are numbers, a
    query on the salary by a value that is no number (a string such as the
    "max" of the top-N listing, [None], a list) matches nothing and
    returns the empty sequence. *)
Theorem salary_query_by_non_number
    (self : JsonVacancyStorage.t) (fs : FS.t) (vs : list Vacancy.t)
    (value : pyval) :
  can_read self fs = true →
  stored self fs = Some (records vs) →
  Forall (λ v, is_number (Vacancy.salary v) = true) vs →
  numeric value = None →
  JsonVacancyStorage.get_vacancies self "salary" value fs = (Ok [], fs).
Proof.
  intros Hr Hs Hnum Hv.
  change "salary" with (field_key Salary).
  rewrite (get_vacancies_field self Salary value vs fs Hr Hs).
  rewrite filter_none; [done |].
  eapply Forall_impl; [exact Hnum |].
  intros v Hn. cbn [field_value]. cbn beta in Hn.
  destruct (Vacancy.salary v); try discriminate; by destruct value.
Qed.

Lemma salary_query_by_non_number_witness :
  let self := {| JsonVacancyStorage.file_name := "vacancies.json" |} in
  let a := Vacancy.__init__ (PStr "Eng") (PStr "u1") (PInt 1000) (PStr "python") in
  let b := Vacancy.__init__ (PStr "Ops") (PStr "u2") PNone (PStr "java") in
  let fs := snd (JsonVacancyStorage.add_vacancies self [a; b]
                   {| FS.files := ∅; FS.creatable := FS.Allowed |}) in
  JsonVacancyStorage.get_vacancies self "salary" (PStr "max") fs = (Ok [], fs).
Proof.
  intros self a b fs.
  assert (Hn : Forall (λ v, is_number (Vacancy.salary v) = true) [a; b]).
  { repeat constructor. }
  exact (salary_query_by_non_number self fs [a; b] (PStr "max")
           eq_refl eq_refl Hn eq_refl).
Defined.

(** X10. A query by a string is exact: on a readable store of constructed
    vacancies, [get_vacancies] by a field and a string returns the stored
    vacancies whose field is that very string, and no other; a prefix, a
    different case or a text that contains the string does not match. *)
Theorem string_query_is_exact
    (self : JsonVacancyStorage.t) (fs : FS.t) (vs : list Vacancy.t)
    (f : field) (keyword : string) :
  Forall constructed vs →
  can_read self fs = true →
  stored self fs = Some (records vs) →
  ∃ found,
    JsonVacancyStorage.get_vacancies self (field_key f) (PStr keyword) fs
    = (Ok found, fs)
    ∧ ∀ x, x ∈ found ↔ x ∈ vs ∧ field_value f x = PStr keyword.
Proof.
  intros Hc Hr Hs.
  exists (List.filter (λ v, py_eq (field_value f v) (PStr keyword)) vs).
  split.
  - rewrite (get_vacancies_field self f _ vs fs Hr Hs).
    by rewrite (map_reloaded _ (filter_constructed _ _ Hc)).
  - intros x.
    rewrite (elem_of_filter_bool
               (λ v, py_eq (field_value f v) (PStr keyword)) vs x).
    assert (Heq : py_eq (field_value f x) (PStr keyword) = true
                  ↔ field_value f x = PStr keyword).
    { destruct (field_value f x); cbn; try (split; [done | discriminate]).
      rewrite String.eqb_eq. split; [by intros -> | by intros [= ->]]. }
    by rewrite Heq.
Qed.

Lemma string_query_is_exact_witness :
  let self := {| JsonVacancyStorage.file_name := "vacancies.json" |} in
  let a := Vacancy.__init__ (PStr "Eng") (PStr "u1") (PInt 1000) (PStr "python developer") in
  let fs := snd (JsonVacancyStorage.add_vacancies self [a]
                   {| FS.files := ∅; FS.creatable := FS.Allowed |}) in
  ∃ found,
    JsonVacancyStorage.get_vacancies self "description" (PStr "python") fs
    = (Ok found, fs)
    ∧ ∀ x, x ∈ found ↔ x ∈ [a] ∧ Vacancy.description x = PStr "python".
Proof.
  intros self a fs.
  assert (Hc : Forall constructed [a]).
  { repeat constructor; by eexists _, _, _, _. }
  exact (string_query_is_exact self fs [a] Description "python"
           Hc eq_refl eq_refl).
Defined.

(** ** Stores of any content *)

Lemma get_vacancies_depends_on_file
    (self : JsonVacancyStorage.t) (key : string) (value : pyval)
    (fs1 fs2 : FS.t) :
  FS.files fs1 !! JsonVacancyStorage.file_name self
  = FS.files fs2 !! JsonVacancyStorage.file_name self →
  fst (JsonVacancyStorage.get_vacancies self key value fs1)
  = fst (JsonVacancyStorage.get_vacancies self key value fs2).
Proof.
  intros H.
  unfold JsonVacancyStorage.get_vacancies, mbind, io_bind, open_r, lift.
  rewrite H. destruct (FS.files fs2 !! _) as [[f |] |]; [| done ..].
  destruct (FS.readable f); [| done]. by destruct (json_load (FS.text f)).
Qed.

Lemma add_vacancies_other_file
    (self : JsonVacancyStorage.t) (vs : list Vacancy.t) (fs : FS.t) (p : string) :
  p ≠ JsonVacancyStorage.file_name self →
  FS.files (snd (JsonVacancyStorage.add_vacancies self vs fs)) !! p
  = FS.files fs !! p.
Proof.
  intros Hp. destruct (can_write self fs) eqn:Hw.
  - rewrite (add_vacancies_ok self vs fs Hw). by apply rewritten_other.
  - by destruct (add_vacancies_fail self vs fs Hw) as (e & -> & _).
Qed.

Lemma delete_vacancies_other_file
    (self : JsonVacancyStorage.t) (key : string) (value : pyval) (fs : FS.t)
    (p : string) :
  p ≠ JsonVacancyStorage.file_name self →
  FS.files (snd (JsonVacancyStorage.delete_vacancies self key value fs)) !! p
  = FS.files fs !! p.
Proof.
  intros Hp.
  destruct (delete_vacancies_cases self key value fs)
    as [[e ->] | (doc & rs & kept & _ & _ & _ & _ & _ & ->)]; [done |].
  by apply rewritten_other.
Qed.

(** X11. Two storages on different files do not interfere: whatever
    [add_vacancies] or [delete_vacancies] does on one of them, returning or
    raising, the other holds what it held and answers every query as
    before. *)
Theorem storages_do_not_interfere
    (s1 s2 : JsonVacancyStorage.t) (fs fs' : FS.t) :
  JsonVacancyStorage.file_name s1 ≠ JsonVacancyStorage.file_name s2 →
  (∃ vs, fs' = snd (JsonVacancyStorage.add_vacancies s1 vs fs))
  ∨ (∃ key value, fs' = snd (JsonVacancyStorage.delete_vacancies s1 key value fs)) →
  stored s2 fs' = stored s2 fs
  ∧ ∀ key value,
      fst (JsonVacancyStorage.get_vacancies s2 key value fs')
      = fst (JsonVacancyStorage.get_vacancies s2 key value fs).
Proof.
  intros Hne Hop.
  assert (Hfile : FS.files fs' !! JsonVacancyStorage.file_name s2
                  = FS.files fs !! JsonVacancyStorage.file_name s2).
  { destruct Hop as [[vs ->] | (key & value & ->)].
    - by apply add_vacancies_other_file.
    - by apply delete_vacancies_other_file. }
  split.
  - unfold stored. by rewrite Hfile.
  - intros key value. by apply get_vacancies_depends_on_file.
Qed.

Lemma storages_do_not_interfere_witness :
  let s1 := {| JsonVacancyStorage.file_name := "vacancies.json" |} in
  let s2 := {| JsonVacancyStorage.file_name := "archive.json" |} in
  let a := Vacancy.__init__ (PStr "Eng") (PStr "u1") (PInt 1000) (PStr "python") in
  let fs := snd (JsonVacancyStorage.add_vacancies s2 [a]
                   {| FS.files := ∅; FS.creatable := FS.Allowed |}) in
  stored s2 (snd (JsonVacancyStorage.add_vacancies s1 [] fs)) = stored s2 fs.
Proof.
  intros s1 s2 a fs.
  assert (Hne : JsonVacancyStorage.file_name s1 ≠ JsonVacancyStorage.file_name s2)
    by discriminate.
  exact (proj1 (storages_do_not_interfere s1 s2 fs _ Hne
                  (or_introl (ex_intro _ [] eq_refl)))).
Defined.

(** X12. A store with nothing to draw from, the empty list (or an empty
    JSON object or string), answers every query with the empty sequence,
    whatever the key, since no record is asked for it; deleting from it
    returns, and leaves the empty list in the file. *)
Theorem empty_store_any_key
    (self : JsonVacancyStorage.t) (fs : FS.t) (doc : pyval)
    (key : string) (value : pyval) :
  can_read self fs = true →
  stored self fs = Some doc →
  iter doc = Ok [] →
  JsonVacancyStorage.get_vacancies self key value fs = (Ok [], fs)
  ∧ (can_write self fs = true →
     JsonVacancyStorage.delete_vacancies self key value fs
     = (Ok tt, rewritten self (PList []) fs)).
Proof.
  intros Hr Hs Hi. split.
  - rewrite (get_vacancies_read self key value doc fs Hr Hs). by rewrite Hi.
  - intros Hw. rewrite (delete_vacancies_read self key value doc fs Hr Hs).
    rewrite Hi. cbn [mbind result_bind JsonVacancyStorage.reject].
    by apply write_ok.
Qed.

Lemma empty_store_any_key_witness :
  let self := {| JsonVacancyStorage.file_name := "vacancies.json" |} in
  let fs := snd (JsonVacancyStorage.add_vacancies self []
                   {| FS.files := ∅; FS.creatable := FS.Allowed |}) in
  JsonVacancyStorage.get_vacancies self "company" (PStr "Eng") fs = (Ok [], fs).
Proof.
  intros self fs.
  exact (proj1 (empty_store_any_key self fs (PList []) "company" (PStr "Eng")
                  eq_refl eq_refl eq_refl)).
Defined.

Lemma from_kwargs_constructed (r : pyval) (x : Vacancy.t) :
  Vacancy.from_kwargs r = Ok x → constructed x.
Proof.
  unfold Vacancy.from_kwargs. destruct r as [| | | | | | d]; try done.
  destruct (forallb _ d); [| done].
  destruct (lookup_key "title" d) as [a |]; [| done].
  destruct (lookup_key "url" d) as [b |]; [| done].
  destruct (lookup_key "salary" d) as [c |]; [| done].
  destruct (lookup_key "description" d) as [e |]; [| done].
  intros [= <-]. by exists a, b, c, e.
Qed.

(** What the comprehension of [get_vacancies] returns, on any records: the
    matching ones, each rebuilt by the constructor, in order. *)
Lemma select_inv (key : string) (value : pyval) (rs : list pyval)
    (res : list Vacancy.t) :
  JsonVacancyStorage.select key value rs = Ok res →
  Forall2 (λ r x, Vacancy.from_kwargs r = Ok x)
    (List.filter (matches key value) rs) res.
Proof.
  revert res. induction rs as [| r rs IH]; intros res.
  - intros [= <-]. constructor.
  - cbn [JsonVacancyStorage.select List.filter]. unfold matches at 1.
    destruct (getitem r key) as [y | e]; [| done].
    cbn [mbind result_bind]. destruct (py_eq y value).
    + destruct (Vacancy.from_kwargs r) as [o | e] eqn:Ho; [| done].
      cbn [mbind result_bind].
      destruct (JsonVacancyStorage.select key value rs) as [os | e]; [| done].
      intros [= <-]. constructor; [done | by apply IH].
    + apply IH.
Qed.

(** X13. Whatever the backing file holds, when [get_vacancies] returns,
    the file held a document it could draw records from, and the vacancies
    returned are, one for one and in stored order, the records whose [key]
    field equals [value], each rebuilt by the constructor: none is left
    out, none is added, and every salary returned is truthy or the int 0
    (a stored [null] comes back as 0). *)
Theorem get_vacancies_returns_matches
    (self : JsonVacancyStorage.t) (key : string) (value : pyval)
    (fs fs' : FS.t) (res : list Vacancy.t) :
  JsonVacancyStorage.get_vacancies self key value fs = (Ok res, fs') →
  ∃ doc rs,
    stored self fs = Some doc ∧ iter doc = Ok rs
    ∧ Forall2 (λ r x, Vacancy.from_kwargs r = Ok x)
        (List.filter (matches key value) rs) res
    ∧ Forall (λ x, truthy (Vacancy.salary x) = true ∨ Vacancy.salary x = PInt 0)
        res.
Proof.
  intros Hget.
  destruct (can_read self fs) eqn:Hr.
  2: { destruct (read_fail self
                   (λ vacancies,
                      lift (vs ← iter vacancies;
                            JsonVacancyStorage.select key value vs))
                   fs (or_introl Hr)) as (e & He & _).
       unfold JsonVacancyStorage.get_vacancies in Hget. cbn zeta in He.
       rewrite He in Hget. discriminate. }
  destruct (stored self fs) as [doc |] eqn:Hs.
  2: { destruct (read_fail self
                   (λ vacancies,
                      lift (vs ← iter vacancies;
                            JsonVacancyStorage.select key value vs))
                   fs (or_intror Hs)) as (e & He & _).
       unfold JsonVacancyStorage.get_vacancies in Hget. cbn zeta in He.
       rewrite He in Hget. discriminate. }
  rewrite (get_vacancies_read self key value doc fs Hr Hs) in Hget.
  destruct (iter doc) as [rs | e] eqn:Hi; [| discriminate].
  cbn [mbind result_bind] in Hget. injection Hget as Hsel _.
  exists doc, rs. split; [done | split; [done |]].
  pose proof (select_inv key value rs res Hsel) as Hall.
  split; [done |].
  clear Hsel. induction Hall as [| r x rs' res' Hx _ IH]; constructor; [| done].
  destruct (from_kwargs_constructed r x Hx) as (t & u & s & d & ->).
  apply init_salary_normal.
Qed.

Lemma get_vacancies_returns_matches_witness :
  let self := {| JsonVacancyStorage.file_name := "vacancies.json" |} in
  let fs :=
    {| FS.files :=
         {[ "vacancies.json" :=
              FS.Regular
                {| FS.text :=
                     FS.Json (PList [PDict [("description", PStr "python");
                                            ("salary", PNone);
                                            ("url", PStr "u1");
                                            ("title", PStr "Eng")]]);
                   FS.readable := true; FS.writable := false |} ]};
       FS.creatable := FS.Forbidden |} in
  Forall (λ x, truthy (Vacancy.salary x) = true ∨ Vacancy.salary x = PInt 0)
    [Vacancy.__init__ (PStr "Eng") (PStr "u1") PNone (PStr "python")].
Proof.
  intros self fs.
  destruct (get_vacancies_returns_matches self "title" (PStr "Eng") fs fs
              [Vacancy.__init__ (PStr "Eng") (PStr "u1") PNone (PStr "python")]
              eq_refl) as (doc & rs & _ & _ & _ & H).
  exact H.
Defined.

(** ** The interaction loop *)

Lemma list_pair_ind {A} (P : list A → Prop) :
  P [] → (∀ x, P [x]) →
  (∀ x y l, P l → P (y :: l) → P (x :: y :: l)) →
  ∀ l, P l.
Proof.
  intros Hnil Hone Hstep l.
  assert (H : P l ∧ ∀ x, P (x :: l)).
  { induction l as [| y l [IH1 IH2]]; [by split |].
    split; [apply IH2 |]. intros x. by apply Hstep. }
  apply H.
Qed.

Lemma never_stores_trans (self : JsonVacancyStorage.t) (fs1 fs2 fs3 : FS.t) :
  never_stores self fs1 fs2 → never_stores self fs2 fs3 →
  never_stores self fs1 fs3.
Proof.
  unfold never_stores. intros H12 [-> | H23]; [done |]. by right.
Qed.

(** An [open] for writing that returns has left the file empty, and
    only that file touched. *)
Lemma open_w_returns (self : JsonVacancyStorage.t) (fs fs1 : FS.t) :
  open_w (JsonVacancyStorage.file_name self) fs = (Ok tt, fs1) →
  stored self fs1 = None
  ∧ ∀ p, p ≠ JsonVacancyStorage.file_name self →
         FS.files fs1 !! p = FS.files fs !! p.
Proof.
  unfold open_w, stored.
  destruct (FS.files fs !! JsonVacancyStorage.file_name self) as [[f |] |].
  - destruct (FS.writable f); [| done]. intros [= <-].
    unfold FS.update; cbn. rewrite lookup_insert_eq.
    split; [done |]. intros p Hp. by rewrite lookup_insert_ne.
  - done.
  - destruct (FS.creatable fs); [| done ..]. intros [= <-].
    unfold FS.update; cbn. rewrite lookup_insert_eq.
    split; [done |]. intros p Hp. by rewrite lookup_insert_ne.
Qed.

(** What the call of [add_vacancies] from the loop does to the files: none
    but the backing file changes; when the call returns, the sequence was
    empty and the file holds the empty list; when it raises, the file
    system is as it was or the file has been emptied. *)
Lemma add_vacancies_items_effect
    (self : JsonVacancyStorage.t) (vacancies : pyval) (fs : FS.t) :
  let r := add_vacancies_items self vacancies fs in
  (∀ p, p ≠ JsonVacancyStorage.file_name self →
        FS.files (snd r) !! p = FS.files fs !! p)
  ∧ match fst r with
    | None =>
        iter vacancies = Ok [] ∧ can_write self fs = true
        ∧ snd r = rewritten self (PList []) fs
    | Some f =>
        (snd r = fs ∧ can_write self fs = false
         ∧ ∃ e, f = Uncaught e ∧ StorageUnavailableError e = true)
        ∨ (stored self (snd r) = None ∧ can_write self fs = true
           ∧ (f = AttributeError ∧ (∃ x l, iter vacancies = Ok (x :: l))
              ∨ (∃ e, f = Uncaught e ∧ iter vacancies = Raise e)))
    end.
Proof.
  unfold add_vacancies_items.
  destruct (can_write self fs) eqn:Hw.
  - pose proof (write_ok self (PList []) fs Hw) as Hwrite.
    unfold mbind, io_bind in Hwrite.
    destruct (open_w (JsonVacancyStorage.file_name self) fs) as [[[] | e] fs1] eqn:Ho;
      [| discriminate].
    destruct (open_w_returns self fs fs1 Ho) as [Hnone Hother].
    destruct (iter vacancies) as [[| x l] | e]; cbn [fst snd].
    + rewrite Hwrite. cbn [snd]. split; [| done].
      intros p Hp. by apply rewritten_other.
    + split; [done |]. right. split; [done |]. split; [done |].
      left. split; [done | by exists x, l].
    + split; [done |]. right. split; [done |]. split; [done |].
      right. by exists e.
  - destruct (write_fail self (PList []) fs Hw) as (e' & Hwrite & He').
    unfold mbind, io_bind in Hwrite.
    destruct (open_w (JsonVacancyStorage.file_name self) fs) as [[[] | e] fs1] eqn:Ho.
    + unfold json_dump in Hwrite. discriminate.
    + injection Hwrite as -> ->. cbn [fst snd]. split; [done |]. left.
      split; [done |]. split; [done |]. by exists e'.
Qed.

Section LoopProperties.

Variable requests_get : HhVacancyAPI.request → HhVacancyAPI.response.
Variable py_str : pyval → string.
Variable py_int : string → option Z.
Variable sort_reverse : list Vacancy.t → result (list Vacancy.t).
Variable vacancy_api : HhVacancyAPI.t.
Variable vacancy_storage : JsonVacancyStorage.t.

Local Abbreviation loop :=
  (interact_with_user requests_get py_str py_int sort_reverse
     vacancy_api vacancy_storage).

(** X14. The loop never stores a vacancy.  Whatever the user enters and
    whatever the remote answers, when the run ends the file system is as it
    was, or the backing file holds the empty list, or it has been emptied
    and holds no JSON document; no other file has changed.  (A search that
    finds something hands [add_vacancies] the records of the response,
    which have no [__dict__].) *)
Theorem interact_never_stores (inputs : list string) (fs : FS.t) :
  never_stores vacancy_storage fs (files_after (loop inputs fs))
  ∧ ∀ p, p ≠ JsonVacancyStorage.file_name vacancy_storage →
         FS.files (files_after (loop inputs fs)) !! p = FS.files fs !! p.
Proof.
  revert fs.
  induction inputs as [| x | x y l IHl IHyl] using list_pair_ind; intros fs.
  - cbn. split; [by left | done].
  - cbn [interact_with_user].
    repeat (destruct (String.eqb x _)); cbn; (split; [by left | done]).
  - cbn [interact_with_user].
    destruct (String.eqb x "1").
    { destruct (HhVacancyAPI.get_vacancies _ _ _ _) as [vacancies | e];
        [| cbn; split; [by left | done]].
      destruct (len vacancies) as [n | e]; [| cbn; split; [by left | done]].
      pose proof (add_vacancies_items_effect vacancy_storage vacancies fs)
        as [Hother Hcase]. cbn zeta in Hother, Hcase.
      destruct (add_vacancies_items vacancy_storage vacancies fs)
        as [[f |] fs1]; cbn [fst snd] in Hother, Hcase; cbn.
      - split; [| done].
        destruct Hcase as [(-> & _) | (Hnone & _)]; [by left |].
        right. by right.
      - destruct Hcase as (_ & _ & ->). destruct (IHl (rewritten vacancy_storage (PList []) fs))
          as [Hn Ho].
        split.
        + eapply never_stores_trans; [| exact Hn].
          right. left. apply stored_rewritten.
        + intros p Hp. rewrite (Ho p Hp). by apply Hother. }
    destruct (String.eqb x "2").
    { destruct (py_int y) as [top_n |]; [| cbn; split; [by left | done]].
      pose proof (get_vacancies_same_files vacancy_storage "salary"
                    (PStr "max") fs) as Hsame.
      destruct (JsonVacancyStorage.get_vacancies vacancy_storage "salary"
                  (PStr "max") fs) as [[vacancies | e] fs1];
        cbn [snd] in Hsame; subst fs1; [| cbn; split; [by left | done]].
      destruct (sort_reverse vacancies) as [sorted | e];
        [| cbn; split; [by left | done]].
      cbn. apply IHl. }
    destruct (String.eqb x "3").
    { pose proof (get_vacancies_same_files vacancy_storage "description"
                    (PStr y) fs) as Hsame.
      destruct (JsonVacancyStorage.get_vacancies vacancy_storage "description"
                  (PStr y) fs) as [[vacancies | e] fs1];
        cbn [snd] in Hsame; subst fs1; [| cbn; split; [by left | done]].
      cbn. apply IHl. }
    destruct (String.eqb x "4"); [cbn; split; [by left | done] |].
    cbn. apply IHyl.
Qed.

(** X15. A search that finds something crashes the program and loses the
    store.  When the remote answers a non-empty list and the backing file
    can be written, choice 1 prints the number found and then ends the run
    with [AttributeError]: the file has been opened and emptied by then, so
    it holds no JSON document, and every later query on it fails as on an
    unavailable store. *)
Theorem search_with_results_crashes
    (search_query : string) (rest : list string) (x : pyval) (l : list pyval)
    (fs : FS.t) :
  HhVacancyAPI.get_vacancies requests_get vacancy_api search_query 0
  = Ok (PList (x :: l)) →
  can_write vacancy_storage fs = true →
  let r := loop ("1" :: search_query :: rest) fs in
  ending_of r = Crashed AttributeError
  ∧ output r
    = (menu ++ [Prompt "Enter search query: ";
                Line ("Found " +:+ pretty (Z.of_nat (length (x :: l)))
                      +:+ " vacancies")])%list
  ∧ stored vacancy_storage (files_after r) = None
  ∧ ∀ key value,
      ∃ e, JsonVacancyStorage.get_vacancies vacancy_storage key value
             (files_after r) = (Raise e, files_after r)
           ∧ StorageUnavailableError e = true.
Proof.
  intros Hapi Hw r. subst r. cbn [interact_with_user String.eqb Ascii.eqb
    Bool.eqb]. cbn match. rewrite Hapi. cbn [len].
  pose proof (add_vacancies_items_effect vacancy_storage (PList (x :: l)) fs)
    as [_ Hcase]. cbn zeta in Hcase.
  destruct (add_vacancies_items vacancy_storage (PList (x :: l)) fs)
    as [[f |] fs1]; cbn [fst snd] in Hcase.
  2: { by destruct Hcase as ([=] & _). }
  destruct Hcase as [(_ & Hw' & _) | (Hnone & _ & Hf)]; [congruence |].
  destruct Hf as [[-> _] | (e & _ & [=])].
  cbn [ending_of output files_after crash].
  split; [done |]. split; [by rewrite <- app_assoc |]. split; [done |].
  intros key value.
  apply (read_fail vacancy_storage _ fs1 (or_intror Hnone)).
Qed.

(** X16. The top-N listing lists nothing on a store of vacancies with
    numeric salaries.  Choice 2 asks the storage for the vacancies whose
    salary equals the string "max"; none does, so for every N the turn
    prints the menu and the prompt and no vacancy line, and the loop goes
    on with the file system as it was.  (That sorting an empty list
    returns it is all that is asked of [list.sort].) *)
Theorem top_listing_is_empty
    (line : string) (top_n : Z) (rest : list string)
    (vs : list Vacancy.t) (fs : FS.t) :
  py_int line = Some top_n →
  sort_reverse [] = Ok [] →
  can_read vacancy_storage fs = true →
  stored vacancy_storage fs = Some (records vs) →
  Forall (λ v, is_number (Vacancy.salary v) = true) vs →
  loop ("2" :: line :: rest) fs
  = emit (menu ++ [Prompt "Enter N: "])%list (loop rest fs).
Proof.
  intros Hint Hsort Hr Hs Hnum.
  cbn [interact_with_user String.eqb Ascii.eqb Bool.eqb]. cbn match.
  rewrite Hint.
  change "salary" with (field_key Salary).
  rewrite (get_vacancies_field vacancy_storage Salary (PStr "max") vs fs Hr Hs).
  rewrite filter_none.
  2: { eapply Forall_impl; [exact Hnum |]. intros v Hn. cbn beta in Hn.
       cbn [field_value]. by destruct (Vacancy.salary v). }
  cbn [map]. rewrite Hsort. unfold top_lines.
  rewrite take_nil. cbn [imap]. by rewrite app_nil_r.
Qed.

(** X17. The loop ends by [break] only at choice 4: a run that exits
    normally has read the line "4"; every other run ends with an uncaught
    exception, the [EOFError] of an exhausted input if nothing else. *)
Theorem interact_exits_only_on_four (inputs : list string) (fs : FS.t) :
  (ending_of (loop inputs fs) = Exited → "4" ∈ inputs)
  ∧ ("4" ∉ inputs → ∃ f, ending_of (loop inputs fs) = Crashed f).
Proof.
  assert (Hexit : ∀ inputs fs,
            ending_of (loop inputs fs) = Exited → "4" ∈ inputs).
  { clear inputs fs. intros inputs.
    induction inputs as [| x | x y l IHl IHyl] using list_pair_ind; intros fs.
    - done.
    - cbn [interact_with_user].
      destruct (String.eqb x "1"); [done |].
      destruct (String.eqb x "2"); [done |].
      destruct (String.eqb x "3"); [done |].
      destruct (String.eqb_spec x "4") as [-> | _]; [intros _; by left | done].
    - cbn [interact_with_user].
      destruct (String.eqb x "1").
      { destruct (HhVacancyAPI.get_vacancies _ _ _ _) as [vacancies | e];
          [| done].
        destruct (len vacancies) as [n | e]; [| done].
        destruct (add_vacancies_items _ _ _) as [[f |] fs1]; [done |].
        cbn. intros H. right. right. by apply (IHl fs1). }
      destruct (String.eqb x "2").
      { destruct (py_int y) as [top_n |]; [| done].
        destruct (JsonVacancyStorage.get_vacancies _ _ _ _)
          as [[vacancies | e] fs1]; [| done].
        destruct (sort_reverse vacancies) as [sorted | e]; [| done].
        cbn. intros H. right. right. by apply (IHl fs1). }
      destruct (String.eqb x "3").
      { destruct (JsonVacancyStorage.get_vacancies _ _ _ _)
          as [[vacancies | e] fs1]; [| done].
        cbn. intros H. right. right. by apply (IHl fs1). }
      destruct (String.eqb_spec x "4") as [-> | _]; [intros _; by left |].
      cbn. intros H. right. by apply (IHyl fs). }
  split; [apply Hexit |].
  intros Hno. destruct (ending_of (loop inputs fs)) as [| f] eqn:He.
  - by destruct (Hno (Hexit inputs fs He)).
  - by exists f.
Qed.

End LoopProperties.

(** X18. Listing before any search crashes the program.  Started where
    there is no "vacancies.json" yet, [main] ends with [FileNotFoundError]
    at the first choice 3, or choice 2 with a readable N, and touches no
    file: the backing file only comes to exist by a search. *)
Theorem main_listing_before_search
    (requests_get : HhVacancyAPI.request → HhVacancyAPI.response)
    (py_str : pyval → string) (py_int : string → option Z)
    (sort_reverse : list Vacancy.t → result (list Vacancy.t))
    (choice line : string) (rest : list string) (fs : FS.t) :
  FS.files fs !! "vacancies.json" = None →
  choice = "3" ∨ (choice = "2" ∧ is_Some (py_int line)) →
  let r := main requests_get py_str py_int sort_reverse
             (choice :: line :: rest) fs in
  ending_of r = Crashed (Uncaught (FileNotFoundError "vacancies.json"))
  ∧ files_after r = fs.
Proof.
  intros Hnone Hchoice r. subst r. unfold main. cbn zeta.
  assert (Hget : ∀ key value,
            JsonVacancyStorage.get_vacancies
              {| JsonVacancyStorage.file_name := "vacancies.json" |} key value fs
            = (Raise (FileNotFoundError "vacancies.json"), fs)).
  { intros key value.
    unfold JsonVacancyStorage.get_vacancies, mbind, io_bind, open_r.
    cbn [JsonVacancyStorage.file_name]. by rewrite Hnone. }
  destruct Hchoice as [-> | [-> [top_n Hn]]];
    cbn [interact_with_user String.eqb Ascii.eqb Bool.eqb]; cbn match.
  - by rewrite Hget.
  - rewrite Hn. by rewrite Hget.
Qed.

Lemma main_listing_before_search_witness :
  ending_of
    (main (λ _, {| HhVacancyAPI.status_code := 200; HhVacancyAPI.body := None |})
       (λ _, "") (λ _, None) (λ l, Ok l)
       ["3"; "python"; "4"] {| FS.files := ∅; FS.creatable := FS.Allowed |})
  = Crashed (Uncaught (FileNotFoundError "vacancies.json")).
Proof.
  exact (proj1 (main_listing_before_search
                  (λ _, {| HhVacancyAPI.status_code := 200;
                           HhVacancyAPI.body := None |})
                  (λ _, "") (λ _, None) (λ l, Ok l)
                  "3" "python" ["4"] {| FS.files := ∅; FS.creatable := FS.Allowed |}
                  eq_refl (or_introl eq_refl))).
Defined.

Lemma search_with_results_crashes_witness :
  let remote : HhVacancyAPI.request → HhVacancyAPI.response :=
    λ _, {| HhVacancyAPI.status_code := 200;
            HhVacancyAPI.body :=
              Some (PDict [("items", PList [PDict [("title", PStr "Eng")]])]) |} in
  ending_of
    (interact_with_user remote (λ _, "") (λ _, None) (λ l, Ok l)
       {| HhVacancyAPI.api_key := "YOUR_API_KEY" |}
       {| JsonVacancyStorage.file_name := "vacancies.json" |}
       ["1"; "python"; "4"] {| FS.files := ∅; FS.creatable := FS.Allowed |})
  = Crashed AttributeError.
Proof.
  intros remote.
  exact (proj1 (search_with_results_crashes remote (λ _, "") (λ _, None)
                  (λ l, Ok l)
                  {| HhVacancyAPI.api_key := "YOUR_API_KEY" |}
                  {| JsonVacancyStorage.file_name := "vacancies.json" |}
                  "python" ["4"] (PDict [("title", PStr "Eng")]) []
                  {| FS.files := ∅; FS.creatable := FS.Allowed |}
                  eq_refl eq_refl)).
Defined.

Lemma top_listing_is_empty_witness :
  let remote : HhVacancyAPI.request → HhVacancyAPI.response :=
    λ _, {| HhVacancyAPI.status_code := 200; HhVacancyAPI.body := None |} in
  let api := {| HhVacancyAPI.api_key := "YOUR_API_KEY" |} in
  let storage := {| JsonVacancyStorage.file_name := "vacancies.json" |} in
  let a := Vacancy.__init__ (PStr "Eng") (PStr "u1") (PInt 1000) (PStr "python") in
  let b := Vacancy.__init__ (PStr "Ops") (PStr "u2") PNone (PStr "java") in
  let fs := snd (JsonVacancyStorage.add_vacancies storage [a; b]
                   {| FS.files := ∅; FS.creatable := FS.Allowed |}) in
  interact_with_user remote (λ _, "") (λ _, Some 5) (λ l, Ok l) api storage
    ["2"; "5"; "4"] fs
  = emit (menu ++ [Prompt "Enter N: "])%list
      (interact_with_user remote (λ _, "") (λ _, Some 5) (λ l, Ok l) api storage
         ["4"] fs).
Proof.
  intros remote api storage a b fs.
  assert (Hn : Forall (λ v, is_number (Vacancy.salary v) = true) [a; b]).
  { repeat constructor. }
  exact (top_listing_is_empty remote (λ _, "") (λ _, Some 5) (λ l, Ok l)
           api storage "5" 5 ["4"] [a; b] fs
           eq_refl eq_refl eq_refl eq_refl Hn).
Defined.
